(** * monaco.py: random points inside Malta's boundary, formatted for the
      driving table API.

    A shallow embedding of [src/monaco.py] and the properties its
    specification states about it.

    - Python [float] is IEEE-754 binary64; it is modelled by [spec_float]
      with the precision and exponent range of binary64, so that
      arithmetic, [round(x, 6)] and [f"{x:.6f}"] compute what CPython
      computes.
    - The module-level random generator, standard output, the clock and
      the HTTP client are the program's effects; they are threaded
      explicitly (generator state, output log, environment record).
    - A Python [dict] with string keys is a [gmap string _]. *)

From Stdlib Require Import ZArith QArith Qabs List String Ascii Bool Lia.
From Stdlib Require Import DecimalString DecimalN DecimalZ SpecFloat.
From stdpp Require Import gmap strings list fin_maps.

Set Warnings "-register-all".

Local Open Scope Z_scope.

(** ** Characters that cannot be written inside a string literal *)

Definition dquote : string := String (ascii_of_nat 34) EmptyString.
Definition newline : string := String (ascii_of_nat 10) EmptyString.
Definition backslash : string := String (ascii_of_nat 92) EmptyString.

(** * Python floats: binary64 *)

Module Float64.

Definition prec : Z := 53.
Definition emax : Z := 1024.

Definition float := spec_float.

Definition add : float -> float -> float := SFadd prec emax.
Definition sub : float -> float -> float := SFsub prec emax.
Definition mul : float -> float -> float := SFmul prec emax.
Definition div : float -> float -> float := SFdiv prec emax.

(** [m * 2^e] rounded to the nearest binary64 (ties to even). *)
Definition of_scaled (m e : Z) : float := binary_normalize prec emax m e false.

(** The binary64 nearest to the decimal [n * 10^-k], as a literal such
    as [14.1836] denotes: the quotient of two integers, rounded once. *)
Definition of_decimal (n : Z) (k : nat) : float :=
  match n with
  | Z0 => S754_zero false
  | Zpos p => SFdiv prec emax (S754_finite false p 0) (S754_finite false (Z.to_pos (10 ^ Z.of_nat k)) 0)
  | Zneg p => SFdiv prec emax (S754_finite true p 0) (S754_finite false (Z.to_pos (10 ^ Z.of_nat k)) 0)
  end.

Definition is_finite (x : float) : bool :=
  match x with
  | S754_zero _ | S754_finite _ _ _ => true
  | _ => false
  end.

(** The exact value of a finite float as a fraction [num / den]. *)
Definition num_den (x : float) : Z * positive :=
  match x with
  | S754_finite s m e =>
      let n := match e with
               | Zneg _ => Zpos m
               | _ => Zpos m * 2 ^ e
               end in
      let d := match e with
               | Zneg k => Pos.pow 2 k
               | _ => 1%positive
               end in
      (if s then - n else n, d)
  | _ => (0, 1%positive)
  end.

Definition to_Q (x : float) : Q := Qmake (fst (num_den x)) (snd (num_den x)).

End Float64.

Abbreviation float := Float64.float.

(** * Python's number formatting and rounding *)

Module PyNum.

Import Float64.

(** The integer nearest to [a / b], ties to the even one: the rounding of
    both [format(x, ".6f")] and [round(x, 6)], which CPython computes on
    the exact binary value of [x]. *)
Definition round_half_even (a : Z) (b : positive) : Z :=
  let q := a / Zpos b in
  let r := a mod Zpos b in
  match 2 * r ?= Zpos b with
  | Lt => q
  | Gt => q + 1
  | Eq => if Z.even q then q else q + 1
  end.

Definition sign_bit (x : float) : bool :=
  match x with
  | S754_zero s | S754_infinity s | S754_finite s _ _ => s
  | S754_nan => false
  end.

(** [|x| * 10^nd] rounded to an integer, for a finite [x]. *)
Definition scaled_magnitude (nd : nat) (x : float) : Z :=
  match x with
  | S754_finite _ m e =>
      let '(n, d) := num_den (S754_finite false m e) in
      round_half_even (n * 10 ^ Z.of_nat nd) d
  | _ => 0
  end.

Definition digit_char (d : Z) : ascii := ascii_of_nat (48 + Z.to_nat d).

(** Exactly [k] decimal digits of [n], most significant first, padded
    with zeros on the left. *)
Fixpoint fixed_digits (k : nat) (n : Z) : string :=
  match k with
  | O => EmptyString
  | S k' => fixed_digits k' (n / 10) +:+ String (digit_char (n mod 10)) EmptyString
  end.

(** [str(n)] for a non-negative integer. *)
Definition str_of_N (n : N) : string := NilEmpty.string_of_uint (N.to_uint n).

(** [str(n)] for a Python int. *)
Definition str_of_int (n : Z) : string :=
  match n with
  | Zneg p => "-" +:+ str_of_N (Npos p)
  | _ => str_of_N (Z.to_N n)
  end.

(** [format(x, ".{nd}f")]. *)
Definition format_f (nd : nat) (x : float) : string :=
  match x with
  | S754_nan => "nan"
  | S754_infinity s => if s then "-inf" else "inf"
  | _ =>
      let n := scaled_magnitude nd x in
      (if sign_bit x then "-" else EmptyString)
        +:+ str_of_N (Z.to_N (n / 10 ^ Z.of_nat nd))
        +:+ match nd with
            | O => EmptyString
            | _ => "." +:+ fixed_digits nd (n mod 10 ^ Z.of_nat nd)
            end
  end.

(** [round(x, nd)] for [nd >= 0]: the correctly rounded decimal with [nd]
    digits, converted back to the nearest float; zeros, infinities and
    nan round to themselves. *)
Definition py_round (x : float) (nd : nat) : float :=
  match x with
  | S754_finite s m e =>
      match scaled_magnitude nd x with
      | Zpos p => SFdiv prec emax (S754_finite s p 0)
                    (S754_finite false (Z.to_pos (10 ^ Z.of_nat nd)) 0)
      | _ => S754_zero s
      end
  | _ => x
  end.

End PyNum.

(** * shapely geometry

    [Point(x, y)] takes the longitude first.  A geometry object is known
    to the program through three members only: [bounds], [contains] and
    [touches]. *)

Module Shapely.

Import Float64.

Record Point := mkPoint { px : float; py : float }.

Record BaseGeometry := mkGeometry {
  bounds : float * float * float * float;   (* minx, miny, maxx, maxy *)
  contains : Point -> bool;                 (* the point is in the interior *)
  touches : Point -> bool                   (* the point is on the boundary *)
}.

(** The test of the sampling loop: inside or on the boundary. *)
Definition covers (g : BaseGeometry) (p : Point) : bool :=
  contains g p || touches g p.

(** ** [Polygon(coords)] for one closed simple ring

    shapely evaluates the predicates on the exact positions of the
    vertices; here they are computed with rational arithmetic on the
    exact values of the binary64 coordinates. *)

Definition Qlt_bool (a b : Q) : bool := negb (Qle_bool b a).

Definition Qmin_b (a b : Q) : Q := if Qle_bool a b then a else b.
Definition Qmax_b (a b : Q) : Q := if Qle_bool a b then b else a.

Definition qpoint : Type := Q * Q.

Definition cross (a b p : qpoint) : Q :=
  ((fst b - fst a) * (snd p - snd a) - (snd b - snd a) * (fst p - fst a))%Q.

Definition on_segment (p : qpoint) (e : qpoint * qpoint) : bool :=
  let '(a, b) := e in
  Qeq_bool (cross a b p) 0
  && Qle_bool (Qmin_b (fst a) (fst b)) (fst p) && Qle_bool (fst p) (Qmax_b (fst a) (fst b))
  && Qle_bool (Qmin_b (snd a) (snd b)) (snd p) && Qle_bool (snd p) (Qmax_b (snd a) (snd b)).

(** The edge crosses the horizontal ray from [p] towards larger [x]. *)
Definition ray_crosses (p : qpoint) (e : qpoint * qpoint) : bool :=
  let '(a, b) := e in
  negb (Bool.eqb (Qlt_bool (snd p) (snd a)) (Qlt_bool (snd p) (snd b)))
  && Qlt_bool (fst p)
       (fst a + (snd p - snd a) * (fst b - fst a) / (snd b - snd a))%Q.

Fixpoint ring_edges (ring : list qpoint) : list (qpoint * qpoint) :=
  match ring with
  | a :: (b :: _) as rest => (a, b) :: ring_edges rest
  | _ => []
  end.

Definition on_ring (ring : list qpoint) (p : qpoint) : bool :=
  existsb (on_segment p) (ring_edges ring).

Definition in_ring_interior (ring : list qpoint) (p : qpoint) : bool :=
  negb (on_ring ring p)
  && Nat.odd (length (filter (fun e => ray_crosses p e = true) (ring_edges ring))).

Definition float_min (a b : float) : float := if SFltb b a then b else a.
Definition float_max (a b : float) : float := if SFltb a b then b else a.

Definition ring_bounds (coords : list (float * float)) : float * float * float * float :=
  match coords with
  | [] => (S754_nan, S754_nan, S754_nan, S754_nan)
  | (x, y) :: rest =>
      fold_left
        (fun '(minx, miny, maxx, maxy) '(x, y) =>
           (float_min minx x, float_min miny y, float_max maxx x, float_max maxy y))
        rest (x, y, x, y)
  end.

Definition qpoint_of (p : Point) : qpoint := (to_Q (px p), to_Q (py p)).

Definition Polygon (coords : list (float * float)) : BaseGeometry :=
  let ring := map (fun '(x, y) => (to_Q x, to_Q y)) coords in
  {| bounds := ring_bounds coords;
     contains := fun p => in_ring_interior ring (qpoint_of p);
     touches := fun p => on_ring ring (qpoint_of p) |}.

End Shapely.

(** * The boundary provider: [get_malta_boundary] *)

Module Boundary.

Import Float64 Shapely.

(** What the Nominatim lookup amounts to for the rest of the program:
    the geometry of the first feature, no usable feature (status other
    than 200 or an empty feature list), or an exception with its
    message. *)
Inductive osm_lookup :=
| OsmFeature (g : BaseGeometry)
| OsmNoFeature
| OsmRaises (msg : string).

(** [malta_coords]: the literal ring of the fallback polygon. *)
Definition malta_coords : list (float * float) :=
  [ (of_decimal 141836 4, of_decimal 357836 4);
    (of_decimal 141836 4, of_decimal 358889 4);
    (of_decimal 142500 4, of_decimal 359500 4);
    (of_decimal 145000 4, of_decimal 359500 4);
    (of_decimal 145677 4, of_decimal 358889 4);
    (of_decimal 145677 4, of_decimal 358000 4);
    (of_decimal 144500 4, of_decimal 357836 4);
    (of_decimal 143000 4, of_decimal 357836 4);
    (of_decimal 141836 4, of_decimal 357836 4) ].

(** Returns the boundary geometry and the lines printed on the way. *)
Definition get_malta_boundary (osm : osm_lookup) : BaseGeometry * list string :=
  match osm with
  | OsmFeature g => (g, [])
  | OsmNoFeature =>
      (Polygon malta_coords, ["Using fallback approximate Malta boundary..."])
  | OsmRaises e =>
      (Polygon malta_coords,
       ["Warning: Could not fetch Malta boundary from OSM: " +:+ e;
        "Using fallback approximate Malta boundary..."])
  end.

End Boundary.

(** * The point sampler: [generate_malta_points] *)

Module Sampler.

Import Float64 PyNum Shapely Boundary.

Section WithRandom.

(** The [random] module: the state of the generator and
    [random.random]. *)
Context {R : Type}.
Variable random : R -> float * R.

(** [random.uniform(a, b)] is [a + (b - a) * random()]. *)
Definition uniform (a b : float) (g : R) : float * R :=
  let '(r, g') := random g in
  (add a (mul (sub b a) r), g').

(** The variables the loop changes: [points], [attempts] and the state of
    the generator. *)
Record loop_state := mkLoop {
  points : list (float * float);      (* (latitude, longitude) *)
  attempts : Z;
  rng : R
}.

Section Loop.

Variable malta_boundary : BaseGeometry.
Variable num_points : Z.

Definition max_attempts : Z := num_points * 20.

(** [len(points) < num_points and attempts < max_attempts] *)
Definition loop_guard (st : loop_state) : bool :=
  (Z.of_nat (length (points st)) <? num_points) && (attempts st <? max_attempts).

(** One pass through the body of the [while]. *)
Definition loop_body (st : loop_state) : loop_state :=
  let '(minx, miny, maxx, maxy) := bounds malta_boundary in
  let '(longitude, g1) := uniform minx maxx (rng st) in
  let '(latitude, g2) := uniform miny maxy g1 in
  let point := mkPoint longitude latitude in
  let points' :=
    if contains malta_boundary point || touches malta_boundary point then
      let rounded_lat := py_round latitude 6 in
      let rounded_lon := py_round longitude 6 in
      points st ++ [(rounded_lat, rounded_lon)]
    else points st in
  {| points := points'; attempts := attempts st + 1; rng := g2 |}.

(** The [while] statement; [None] when [fuel] passes do not reach a
    state that fails the guard. *)
Fixpoint while_loop (fuel : nat) (st : loop_state) : option loop_state :=
  if loop_guard st then
    match fuel with
    | O => None
    | S fuel' => while_loop fuel' (loop_body st)
    end
  else Some st.

(** The same loop as a relation between the state at entry and the
    state at exit. *)
Inductive loop_runs : loop_state -> loop_state -> Prop :=
| loop_exit st : loop_guard st = false -> loop_runs st st
| loop_pass st st' :
    loop_guard st = true -> loop_runs (loop_body st) st' -> loop_runs st st'.

End Loop.

Record generated := mkGenerated {
  gen_points : list (float * float);
  gen_stdout : list string;
  gen_attempts : Z;
  gen_rng : R
}.

Definition shortfall_warning (got : nat) (num_points : Z) : string :=
  "Warning: Only generated " +:+ str_of_int (Z.of_nat got) +:+ " points out of "
    +:+ str_of_int num_points +:+ " requested after "
    +:+ str_of_int (max_attempts num_points) +:+ " attempts.".

Definition generating_line (num_points : Z) : string :=
  "Generating " +:+ str_of_int num_points +:+ " points within Malta's boundaries...".

(** [fuel] bounds the passes through the loop in the model only; the
    result is [None] when it is too small (see [while_loop]). *)
Definition generate_malta_points (fuel : nat) (osm : osm_lookup)
    (num_points : Z) (g : R) : option generated :=
  let '(malta_boundary, notices) := get_malta_boundary osm in
  let st0 := {| points := []; attempts := 0; rng := g |} in
  match while_loop malta_boundary num_points fuel st0 with
  | None => None
  | Some st =>
      let warning :=
        if Z.of_nat (length (points st)) <? num_points
        then [shortfall_warning (length (points st)) num_points]
        else [] in
      Some {| gen_points := points st;
              gen_stdout := notices ++ generating_line num_points :: warning;
              gen_attempts := attempts st;
              gen_rng := rng st |}
  end.

End WithRandom.

(** A generator that replays a tape of 53-bit integers [k], each read as
    [k / 2^53], the form of every value of [random.random()]; it yields
    [0.0] once the tape is used up. *)
Definition tape_random (tape : list Z) : float * list Z :=
  match tape with
  | [] => (S754_zero false, [])
  | k :: rest => (of_scaled k (-53), rest)
  end.

End Sampler.

(** * Formatting for the API and the request *)

Module Api.

Import Float64 PyNum.

(** [format_points_for_api]: the loop appends one ["lon,lat"] string per
    point, then the strings are joined with [";"]. *)
Definition format_points_for_api (points : list (float * float)) : string :=
  let formatted_points :=
    fold_left
      (fun acc '(lat, lon) => acc ++ [format_f 6 lon +:+ "," +:+ format_f 6 lat])
      points [] in
  String.concat ";" formatted_points.

(** [points[:k]] *)
Definition slice_to {A} (l : list A) (k : Z) : list A :=
  if k <? 0 then firstn (Z.to_nat (Z.of_nat (length l) + k)) l
  else firstn (Z.to_nat k) l.

(** The truth value of an optional int: [None] and [0] are false. *)
Definition truthy (max_points : option Z) : bool :=
  match max_points with
  | None => false
  | Some k => negb (k =? 0)
  end.

(** [if max_points: points = points[:max_points]], the first statement of
    both [generate_curl_command] and [make_driving_api_request]. *)
Definition select_points (points : list (float * float))
    (max_points : option Z) : list (float * float) :=
  match max_points with
  | Some k => if truthy max_points then slice_to points k else points
  | None => points
  end.

Definition generate_curl_command (points : list (float * float))
    (max_points : option Z) : string :=
  let points := select_points points max_points in
  let api_format := format_points_for_api points in
  "curl -X POST " +:+ dquote +:+ "http://127.0.0.1:5002/table/v1/driving/" +:+ dquote
    +:+ " " +:+ backslash +:+ newline
    +:+ "-H " +:+ dquote +:+ "Content-Type: application/x-www-form-urlencoded" +:+ dquote
    +:+ " " +:+ backslash +:+ newline
    +:+ "-d " +:+ dquote +:+ api_format +:+ dquote.

(** ** Values, exceptions and the HTTP client *)

(** The values a decoded JSON body or a returned dictionary holds. *)
Inductive pyval :=
| PyNone
| PyBool (b : bool)
| PyInt (n : Z)
| PyFloat (x : float)
| PyStr (s : string)
| PyList (l : list pyval)
| PyDict (d : gmap string pyval).

Inductive exc_class :=
| RequestException      (* requests.exceptions.RequestException and subclasses *)
| TypeError
| OtherException.

Record exception := mkExc { exc_class_of : exc_class; exc_str : string }.

Definition is_request_exception (e : exception) : bool :=
  match exc_class_of e with
  | RequestException => true
  | _ => false
  end.

(** A response object: [json] is what [response.json()] gives, [None]
    when it raises [json.JSONDecodeError]. *)
Record response := mkResponse {
  status_code : Z;
  text : string;
  json : option pyval
}.

Inductive post_result :=
| PostReturns (r : response)
| PostRaises (e : exception).

(** What the function reads from the outside: [requests.post] and the two
    readings of [time.monotonic()]. *)
Record environment := mkEnv {
  post : string -> string -> gmap string string -> post_result;
  monotonic_before : float;
  monotonic_after : float
}.

Inductive event :=
| Printed (line : string)
| Posted (url data : string) (headers : gmap string string).

Inductive outcome :=
| Returns (d : gmap string pyval)
| Raises (e : exception).

Definition request_headers : gmap string string :=
  {[ "Content-Type" := "application/x-www-form-urlencoded" ]}.

Definition default_api_url : string := "http://127.0.0.1:5002/table/v1/driving/".

(** [type(v).__name__] *)
Definition type_name (v : pyval) : string :=
  match v with
  | PyNone => "NoneType"
  | PyBool _ => "bool"
  | PyInt _ => "int"
  | PyFloat _ => "float"
  | PyStr _ => "str"
  | PyList _ => "list"
  | PyDict _ => "dict"
  end.

(** The exception of [v['request_duration_seconds'] = duration] for a
    value [v] that is not a dict: a list refuses the string index, the
    other values have no item assignment. *)
Definition item_assignment_error (v : pyval) : exception :=
  mkExc TypeError
    (match v with
     | PyList _ => "list indices must be integers or slices, not str"
     | _ => "'" +:+ type_name v +:+ "' object does not support item assignment"
     end).

Definition make_driving_api_request (env : environment)
    (points : list (float * float)) (max_points : option Z)
    (api_url : string) : outcome * list event :=
  let points := select_points points max_points in
  let api_format := format_points_for_api points in
  let headers := request_headers in
  let printed :=
    [ Printed ("Making API request to: " +:+ api_url);
      Printed ("Sending " +:+ str_of_int (Z.of_nat (length points)) +:+ " points...");
      Printed (if (100 <? Z.of_nat (String.length api_format))%Z
               then "Data: " +:+ substring 0 100 api_format +:+ "..."
               else "Data: " +:+ api_format);
      Posted api_url api_format headers ] in
  match post env api_url api_format headers with
  | PostReturns resp =>
      let duration := sub (monotonic_after env) (monotonic_before env) in
      let printed :=
        printed ++ [Printed ("Response Status Code: " +:+ str_of_int (status_code resp))] in
      if status_code resp =? 200 then
        match json resp with
        | Some (PyDict data) =>
            (Returns (<["request_duration_seconds" := PyFloat duration]> data), printed)
        | Some v =>
            (* item assignment on a value that is not a dict *)
            (Raises (item_assignment_error v), printed)
        | None =>
            (Returns (<["raw_response" := PyStr (text resp)]>
                        {[ "request_duration_seconds" := PyFloat duration ]}), printed)
        end
      else
        (Returns (<["error" := PyStr ("API request failed with status "
                                       +:+ str_of_int (status_code resp))]>
                 (<["response_text" := PyStr (text resp)]>
                    {[ "request_duration_seconds" := PyFloat duration ]})), printed)
  | PostRaises e =>
      if is_request_exception e then
        (Returns (<["error" := PyStr ("Request failed: " +:+ exc_str e)]>
                    {[ "suggestion" :=
                         PyStr "Make sure the API server is running on http://127.0.0.1:5002" ]}),
         printed)
      else (Raises e, printed)
  end.

End Api.

(** * Reading the API string back *)

Module ApiParse.

Import Float64 PyNum.

(** [s.split(sep)] for a one-character separator. *)
Fixpoint split_on (sep : ascii) (s : string) : list string :=
  match s with
  | EmptyString => [EmptyString]
  | String c rest =>
      if Ascii.eqb c sep then EmptyString :: split_on sep rest
      else match split_on sep rest with
           | x :: xs => String c x :: xs
           | [] => [String c EmptyString]
           end
  end.

Definition digit_value (c : ascii) : option Z :=
  let n := Z.of_nat (nat_of_ascii c) in
  if (48 <=? n) && (n <=? 57) then Some (n - 48) else None.

(** The number written by a string of decimal digits, continuing from
    [acc]; leading zeros are allowed. *)
Fixpoint digits_value (acc : Z) (s : string) : option Z :=
  match s with
  | EmptyString => Some acc
  | String c rest =>
      match digit_value c with
      | Some d => digits_value (acc * 10 + d) rest
      | None => None
      end
  end.

Definition is_digit (c : ascii) : bool :=
  match digit_value c with
  | Some _ => true
  | None => false
  end.

Fixpoint all_digits (s : string) : bool :=
  match s with
  | EmptyString => true
  | String c rest => is_digit c && all_digits rest
  end.

(** Fixed-point text with six decimals: an optional minus sign, at least
    one digit, a point, exactly six digits. *)
Definition is_fixed6 (s : string) : bool :=
  let unsigned :=
    match s with
    | String c rest => if Ascii.eqb c "-" then rest else s
    | EmptyString => s
    end in
  match split_on "." unsigned with
  | [i; f] =>
      negb (String.eqb i EmptyString) && all_digits i
      && Nat.eqb (String.length f) 6 && all_digits f
  | _ => false
  end.

(** What a coordinate string denotes: an exact decimal, or one of the
    special values that [format] prints as [inf], [-inf] and [nan]. *)
Inductive number :=
| Decimal (q : Q)
| Infinite (negative : bool)
| NotANumber.

Definition parse_unsigned (s : string) : option Q :=
  match split_on "." s with
  | [i] =>
      match NilEmpty.uint_of_string i with
      | Some u => Some (inject_Z (Z.of_N (N.of_uint u)))
      | None => None
      end
  | [i; f] =>
      match NilEmpty.uint_of_string i, digits_value 0 f with
      | Some u, Some v =>
          let scale := 10 ^ Z.of_nat (String.length f) in
          Some (Qmake (Z.of_N (N.of_uint u) * scale + v) (Z.to_pos scale))
      | _, _ => None
      end
  | _ => None
  end.

Definition parse_number (s : string) : option number :=
  if String.eqb s "nan" then Some NotANumber
  else if String.eqb s "inf" then Some (Infinite false)
  else if String.eqb s "-inf" then Some (Infinite true)
  else match s with
       | String c rest =>
           if Ascii.eqb c "-" then
             match parse_unsigned rest with
             | Some q => Some (Decimal (- q))
             | None => None
             end
           else
             match parse_unsigned s with
             | Some q => Some (Decimal q)
             | None => None
             end
       | EmptyString => None
       end.

(** One ["lon,lat"] item, read back as (latitude, longitude). *)
Definition parse_point (s : string) : option (number * number) :=
  match split_on "," s with
  | [lon; lat] =>
      match parse_number lat, parse_number lon with
      | Some la, Some lo => Some (la, lo)
      | _, _ => None
      end
  | _ => None
  end.

Fixpoint parse_items (items : list string) : option (list (number * number)) :=
  match items with
  | [] => Some []
  | s :: rest =>
      match parse_point s, parse_items rest with
      | Some p, Some ps => Some (p :: ps)
      | _, _ => None
      end
  end.

(** Modelled from the spec: the repository has no function that reads
    the ["lon,lat;lon,lat"] string; the round trip of the specification
    ("formatting a Point Set to the delimited API string and parsing it
    back") needs one.  The empty string is the empty point set; any other
    string is split at [";"], each item at [","], and each coordinate is
    read as the decimal it writes. *)
Definition parse_api_string (s : string) : option (list (number * number)) :=
  match s with
  | EmptyString => Some []
  | _ => parse_items (split_on ";" s)
  end.

(** The rounding tolerance of six decimals: half a unit of the sixth. *)
Definition tolerance : Q := Qmake 1 2000000.

(** The value read back stands for the float it was printed from. *)
Definition within_tolerance (x : float) (v : number) : Prop :=
  match x, v with
  | S754_nan, NotANumber => True
  | S754_infinity s, Infinite s' => s = s'
  | S754_zero _, Decimal q | S754_finite _ _ _, Decimal q =>
      (Qabs (q - to_Q x) <= tolerance)%Q
  | _, _ => False
  end.

End ApiParse.

(** * Properties of the point sampler *)

Module SamplerProofs.

Import Float64 PyNum Shapely Boundary Sampler.

Section WithRandom.

Context {R : Type}.
Variable random : R -> float * R.

Section Loop.

Variable malta_boundary : BaseGeometry.
Variable num_points : Z.

Abbreviation guard := (loop_guard (R:=R) num_points).
Abbreviation body := (loop_body random malta_boundary).
Abbreviation while := (while_loop random malta_boundary num_points).
Abbreviation runs := (loop_runs random malta_boundary num_points).
Abbreviation budget := (max_attempts num_points).

(** What one pass does to each variable. *)
Lemma loop_body_spec (st : loop_state) :
  attempts (body st) = attempts st + 1 /\
  (points (body st) = points st \/
   exists longitude latitude,
     covers malta_boundary (mkPoint longitude latitude) = true /\
     points (body st) = points st ++ [(py_round latitude 6, py_round longitude 6)]).
Proof.
  unfold loop_body.
  destruct (bounds malta_boundary) as [[[minx miny] maxx] maxy].
  destruct (uniform random minx maxx (rng st)) as [longitude g1].
  destruct (uniform random miny maxy g1) as [latitude g2].
  cbn [attempts points]. split; [reflexivity|].
  destruct (contains malta_boundary (mkPoint longitude latitude)
            || touches malta_boundary (mkPoint longitude latitude)) eqn:Hin.
  - right. exists longitude, latitude. split; [exact Hin | reflexivity].
  - left. reflexivity.
Qed.

Lemma loop_body_attempts (st : loop_state) :
  attempts (body st) = attempts st + 1.
Proof. apply loop_body_spec. Qed.

Lemma loop_body_length (st : loop_state) :
  (length (points st) <= length (points (body st)) <= S (length (points st)))%nat.
Proof.
  destruct (loop_body_spec st) as [_ [-> | (lo & la & _ & ->)]].
  - lia.
  - rewrite length_app. simpl. lia.
Qed.

Lemma loop_body_rejects (st : loop_state) :
  (forall p, covers malta_boundary p = false) ->
  points (body st) = points st.
Proof.
  intros Hnone.
  destruct (loop_body_spec st) as [_ [Heq | (lo & la & Hin & _)]]; [exact Heq|].
  rewrite Hnone in Hin. discriminate.
Qed.

Lemma guard_true (st : loop_state) :
  guard st = true <->
  Z.of_nat (length (points st)) < num_points /\ attempts st < budget.
Proof. unfold loop_guard. rewrite andb_true_iff, !Z.ltb_lt. tauto. Qed.

Lemma guard_false (st : loop_state) :
  guard st = false <->
  num_points <= Z.of_nat (length (points st)) \/ budget <= attempts st.
Proof. unfold loop_guard. rewrite andb_false_iff, !Z.ltb_ge. tauto. Qed.

(** The function and the relation describe the same loop. *)
Lemma while_runs (fuel : nat) (st st' : loop_state) :
  while fuel st = Some st' -> runs st st'.
Proof.
  revert st. induction fuel as [|fuel IH]; intros st; simpl;
    destruct (guard st) eqn:Hg; intros Hw; try discriminate.
  - injection Hw as <-. now apply loop_exit.
  - apply loop_pass; [exact Hg | now apply IH].
  - injection Hw as <-. now apply loop_exit.
Qed.

Lemma runs_deterministic (st a b : loop_state) :
  runs st a -> runs st b -> a = b.
Proof.
  intros Ha. revert b.
  induction Ha as [st Hg | st st' Hg _ IH]; intros b Hb;
    inversion Hb; subst; try congruence.
  now apply IH.
Qed.

(** The state at exit fails the guard; the counters only grow. *)
Lemma runs_exit (st st' : loop_state) :
  runs st st' ->
  guard st' = false /\ attempts st <= attempts st' /\
  (length (points st) <= length (points st'))%nat.
Proof.
  induction 1 as [st Hg | st st' Hg _ IH].
  - split; [exact Hg | lia].
  - destruct IH as (Hg' & Ha & Hl). split; [exact Hg'|].
    rewrite loop_body_attempts in Ha. pose proof (loop_body_length st). lia.
Qed.

(** Inside the budget the loop stays inside the budget, and it never
    holds more points than were asked for. *)
Lemma runs_bounded (st st' : loop_state) :
  runs st st' ->
  attempts st <= budget -> Z.of_nat (length (points st)) <= num_points ->
  attempts st' <= budget /\ Z.of_nat (length (points st')) <= num_points.
Proof.
  induction 1 as [st Hg | st st' Hg _ IH]; intros Ha Hl; [tauto|].
  apply guard_true in Hg. apply IH.
  - rewrite loop_body_attempts. lia.
  - pose proof (loop_body_length st). lia.
Qed.

Lemma runs_rejecting (st st' : loop_state) :
  (forall p, covers malta_boundary p = false) ->
  runs st st' -> points st' = points st.
Proof.
  intros Hnone. induction 1 as [st Hg | st st' Hg _ IH]; [reflexivity|].
  rewrite IH. now apply loop_body_rejects.
Qed.

(** Every point the loop adds is the rounding of a sampled point that
    the boundary covers. *)
Lemma runs_points_from_covered (st st' : loop_state) :
  runs st st' ->
  exists added,
    points st' = points st ++ added /\
    Forall (fun p => exists longitude latitude,
                covers malta_boundary (mkPoint longitude latitude) = true /\
                p = (py_round latitude 6, py_round longitude 6)) added.
Proof.
  induction 1 as [st Hg | st st' Hg _ IH].
  - exists []. rewrite app_nil_r. split; [reflexivity | constructor].
  - destruct IH as (added & Heq & Hall).
    destruct (loop_body_spec st) as [_ [Hb | (lo & la & Hin & Hb)]];
      rewrite Hb in Heq.
    + exists added. split; assumption.
    + exists ((py_round la 6, py_round lo 6) :: added). split.
      * rewrite Heq, <- app_assoc. reflexivity.
      * constructor; [|exact Hall]. exists lo, la. split; [exact Hin | reflexivity].
Qed.

(** The loop ends: as many passes as the budget leaves are enough. *)
Lemma while_returns (fuel : nat) (st : loop_state) :
  (Z.to_nat (budget - attempts st) <= fuel)%nat ->
  exists st', while fuel st = Some st'.
Proof.
  revert st. induction fuel as [|fuel IH]; intros st Hfuel; simpl;
    destruct (guard st) eqn:Hg; try (eexists; reflexivity).
  - apply guard_true in Hg. lia.
  - apply guard_true in Hg. apply IH. rewrite loop_body_attempts. lia.
Qed.

End Loop.

(** ** The whole function *)

Definition entry (g : R) : loop_state (R:=R) :=
  {| points := []; attempts := 0; rng := g |}.

Lemma generate_runs (fuel : nat) (osm : osm_lookup) (num_points : Z) (g : R)
    (out : generated) :
  generate_malta_points random fuel osm num_points g = Some out ->
  exists st,
    loop_runs random (fst (get_malta_boundary osm)) num_points (entry g) st /\
    out = {| gen_points := points st;
             gen_stdout :=
               snd (get_malta_boundary osm) ++
               generating_line num_points ::
               (if Z.of_nat (length (points st)) <? num_points
                then [shortfall_warning (length (points st)) num_points]
                else []);
             gen_attempts := attempts st;
             gen_rng := rng st |}.
Proof.
  unfold generate_malta_points.
  destruct (get_malta_boundary osm) as [boundary notices]. cbn [fst snd].
  destruct (while_loop _ _ _ _ _) as [st|] eqn:Hw; [|discriminate].
  intros [= <-]. exists st. split; [|reflexivity].
  eapply while_runs, Hw.
Qed.

Lemma generate_returns (fuel : nat) (osm : osm_lookup) (num_points : Z) (g : R) :
  (Z.to_nat (num_points * 20) <= fuel)%nat ->
  exists out, generate_malta_points random fuel osm num_points g = Some out.
Proof.
  intros Hfuel. unfold generate_malta_points.
  destruct (get_malta_boundary osm) as [boundary notices].
  destruct (while_returns boundary num_points fuel (entry g)) as [st Hst].
  - unfold max_attempts, entry. cbn [attempts]. rewrite Z.sub_0_r. exact Hfuel.
  - unfold entry in Hst. rewrite Hst. eexists. reflexivity.
Qed.

(** Every returned pair is the rounding to six decimals of a sampled
    point that passed the boundary test. *)
Lemma generated_points_round_covered (fuel : nat) (osm : osm_lookup)
    (num_points : Z) (g : R) (out : generated) :
  generate_malta_points random fuel osm num_points g = Some out ->
  Forall (fun p => exists longitude latitude,
              covers (fst (get_malta_boundary osm)) (mkPoint longitude latitude) = true /\
              p = (py_round latitude 6, py_round longitude 6))
         (gen_points out).
Proof.
  intros Hgen. destruct (generate_runs _ _ _ _ _ Hgen) as (st & Hruns & ->).
  destruct (runs_points_from_covered _ _ _ _ Hruns) as (added & Heq & Hall).
  cbn [gen_points]. rewrite Heq. exact Hall.
Qed.

(** C3: for a count that is not negative the loop ends after at most
    [count * 20] attempts, in a state where [count] points are collected
    or the budget is used up; when the boundary accepts no point at all
    it ends with no point and the whole budget spent. *)
Theorem sampling_ends_within_budget (fuel : nat) (osm : osm_lookup)
    (count : Z) (g : R) :
  0 <= count ->
  (Z.to_nat (count * 20) <= fuel)%nat ->
  exists out,
    generate_malta_points random fuel osm count g = Some out /\
    0 <= gen_attempts out <= count * 20 /\
    (Z.of_nat (length (gen_points out)) = count \/ gen_attempts out = count * 20) /\
    ((forall p, covers (fst (get_malta_boundary osm)) p = false) ->
     gen_points out = [] /\ gen_attempts out = count * 20).
Proof.
  intros Hcount Hfuel.
  destruct (generate_returns fuel osm count g Hfuel) as [out Hgen].
  exists out. split; [exact Hgen|].
  destruct (generate_runs _ _ _ _ _ Hgen) as (st & Hruns & ->).
  cbn [gen_attempts gen_points].
  destruct (runs_exit _ _ _ _ Hruns) as (Hg & Ha & _).
  destruct (runs_bounded _ _ _ _ Hruns) as (Hb & Hl);
    [unfold max_attempts; cbn; lia | cbn; lia |].
  apply guard_false in Hg. unfold max_attempts in *. cbn [entry attempts] in Ha.
  split; [lia|]. split; [lia|].
  intros Hnone. rewrite (runs_rejecting _ _ _ _ Hnone Hruns) in *.
  cbn [entry points length] in *. split; [reflexivity | lia].
Qed.

(** C6: with a count of zero the result is the empty list, no attempt is
    made and the generator is not touched, whatever the boundary. *)
Theorem zero_count_returns_empty (fuel : nat) (osm : osm_lookup) (g : R) :
  generate_malta_points random fuel osm 0 g =
  Some {| gen_points := [];
          gen_stdout := snd (get_malta_boundary osm) ++ [generating_line 0];
          gen_attempts := 0;
          gen_rng := g |}.
Proof.
  unfold generate_malta_points.
  destruct (get_malta_boundary osm) as [boundary notices].
  destruct fuel; reflexivity.
Qed.

Lemma warning_is_no_other_line (osm : osm_lookup) (got : nat) (num_points : Z) :
  ~ In (shortfall_warning got num_points)
       (snd (get_malta_boundary osm) ++ [generating_line num_points]).
Proof.
  unfold shortfall_warning, generating_line.
  destruct osm; cbn; intros H; intuition discriminate.
Qed.

(** C7: the shortfall warning, which names the number of points
    collected and the count, is printed exactly when fewer points than
    requested were collected, as the last line; that happens only with
    the whole budget of attempts spent, and the points collected by then
    are what the function returns. *)
Theorem shortfall_warning_iff (fuel : nat) (osm : osm_lookup) (count : Z) (g : R) :
  (Z.to_nat (count * 20) <= fuel)%nat ->
  exists out,
    generate_malta_points random fuel osm count g = Some out /\
    (In (shortfall_warning (length (gen_points out)) count) (gen_stdout out) <->
     Z.of_nat (length (gen_points out)) < count) /\
    (Z.of_nat (length (gen_points out)) < count ->
     gen_attempts out = count * 20 /\
     gen_stdout out =
       snd (get_malta_boundary osm) ++
       [generating_line count; shortfall_warning (length (gen_points out)) count]).
Proof.
  intros Hfuel.
  destruct (generate_returns fuel osm count g Hfuel) as [out Hgen].
  exists out. split; [exact Hgen|].
  destruct (generate_runs _ _ _ _ _ Hgen) as (st & Hruns & ->).
  cbn [gen_attempts gen_points gen_stdout].
  destruct (runs_exit _ _ _ _ Hruns) as (Hg & _ & _).
  apply guard_false in Hg. unfold max_attempts in Hg.
  pose proof (warning_is_no_other_line osm (length (points st)) count) as Hother.
  destruct (Z.ltb_spec (Z.of_nat (length (points st))) count) as [Hlt|Hge].
  - split.
    + split; [intros _; exact Hlt|].
      intros _. rewrite in_app_iff. right. right. left. reflexivity.
    + intros _. split; [|reflexivity].
      destruct (runs_bounded _ _ _ _ Hruns) as (Hb & _);
        [unfold max_attempts; cbn; lia | cbn; lia |].
      unfold max_attempts in Hb. lia.
  - split; [|lia]. split; [|lia].
    intros Hin. exfalso. apply Hother.
    rewrite in_app_iff in *. cbn in *. tauto.
Qed.

End WithRandom.

(** ** Concrete runs on the fallback boundary *)

(** Two values of [random.random()], as numerators over [2^53]: they place
    the sampled point just inside the north-west edge of the fallback
    polygon. *)
Definition edge_draws : list Z := [1094213834040930; 8024029314863702].

(** The sampled point before rounding: (14.230261289682684,
    35.93183680927127). *)
Definition edge_sample : Point :=
  mkPoint (S754_finite false 8010924930199966 (-49))
          (S754_finite false 5056956464530361 (-47)).

Lemma sampling_ends_within_budget_example :
  exists out,
    generate_malta_points tape_random 20 OsmNoFeature 1 edge_draws = Some out /\
    0 <= gen_attempts out <= 1 * 20 /\
    (Z.of_nat (length (gen_points out)) = 1 \/ gen_attempts out = 1 * 20) /\
    ((forall p, covers (fst (get_malta_boundary OsmNoFeature)) p = false) ->
     gen_points out = [] /\ gen_attempts out = 1 * 20).
Proof.
  apply (sampling_ends_within_budget tape_random 20 OsmNoFeature 1 edge_draws);
    [lia | simpl; lia].
Defined.

(** Twenty attempts that each draw [0] and then the largest value below
    [1]: every sample is the north-west corner of the bounding box, which
    the fallback polygon leaves out. *)
Definition corner_draws : list Z :=
  flat_map (fun _ => [0; 9007199254740991]) (seq 0 20).

Lemma corner_run_warns :
  option_map (fun out => (gen_points out, gen_stdout out, gen_attempts out))
    (generate_malta_points tape_random 20 OsmNoFeature 1 corner_draws)
  = Some ([],
          ["Using fallback approximate Malta boundary...";
           "Generating 1 points within Malta's boundaries...";
           "Warning: Only generated 0 points out of 1 requested after 20 attempts."],
          20).
Proof. vm_compute. reflexivity. Qed.

Lemma shortfall_warning_iff_example :
  exists out,
    generate_malta_points tape_random 20 OsmNoFeature 1 corner_draws = Some out /\
    (In (shortfall_warning (length (gen_points out)) 1) (gen_stdout out) <->
     Z.of_nat (length (gen_points out)) < 1) /\
    (Z.of_nat (length (gen_points out)) < 1 ->
     gen_attempts out = 1 * 20 /\
     gen_stdout out =
       snd (get_malta_boundary OsmNoFeature) ++
       [generating_line 1; shortfall_warning (length (gen_points out)) 1]).
Proof.
  apply (shortfall_warning_iff tape_random 20 OsmNoFeature 1 corner_draws).
  simpl. lia.
Defined.

(** C1: on the fallback polygon, with the two draws above, the sampled
    point passes the boundary test, and the pair that is returned, its
    rounding (35.931837, 14.230261), lies outside the polygon: neither
    inside nor on the boundary. *)
Theorem rounded_point_outside_boundary :
  let boundary := fst (get_malta_boundary OsmNoFeature) in
  let lat := py_round (py edge_sample) 6 in
  let lon := py_round (px edge_sample) 6 in
  fst (uniform tape_random (of_decimal 141836 4) (of_decimal 145677 4) edge_draws)
    = px edge_sample /\
  covers boundary edge_sample = true /\
  option_map gen_points
    (generate_malta_points tape_random 20 OsmNoFeature 1 edge_draws)
    = Some [(lat, lon)] /\
  format_f 6 lat = "35.931837" /\ format_f 6 lon = "14.230261" /\
  covers boundary (mkPoint lon lat) = false.
Proof. vm_compute. repeat split; reflexivity. Qed.

End SamplerProofs.

(** * Properties of the request helpers *)

Module ApiProofs.

Import Float64 PyNum Api.

(** The text of one point: longitude, a comma, latitude. *)
Definition render (p : float * float) : string :=
  format_f 6 (snd p) +:+ "," +:+ format_f 6 (fst p).

Lemma formatted_points_map (points : list (float * float)) (acc : list string) :
  fold_left
    (fun acc '(lat, lon) => acc ++ [format_f 6 lon +:+ "," +:+ format_f 6 lat])
    points acc
  = acc ++ map render points.
Proof.
  revert acc. induction points as [|[lat lon] rest IH]; intros acc; simpl.
  - now rewrite app_nil_r.
  - rewrite IH, <- app_assoc. reflexivity.
Qed.

Lemma format_points_for_api_map (points : list (float * float)) :
  format_points_for_api points = String.concat ";" (map render points).
Proof. unfold format_points_for_api. now rewrite formatted_points_map. Qed.

Lemma append_cons_nonempty (a b : string) (c : ascii) :
  a +:+ String c b <> EmptyString.
Proof. destruct a; discriminate. Qed.

Lemma format_points_nonempty (points : list (float * float)) :
  points <> [] -> format_points_for_api points <> EmptyString.
Proof.
  rewrite format_points_for_api_map.
  destruct points as [|[lat lon] rest]; [congruence|]. intros _.
  cbn [map String.concat].
  assert (Hne : render (lat, lon) <> EmptyString) by apply append_cons_nonempty.
  destruct (map render rest); [exact Hne|].
  destruct (render (lat, lon)); [congruence | discriminate].
Qed.

Lemma select_points_zero (points : list (float * float)) :
  select_points points (Some 0) = points.
Proof. reflexivity. Qed.




(** The body handed to [requests.post] is the formatted selection. *)
Lemma request_posts_selected (env : environment) (points : list (float * float))
    (max_points : option Z) (api_url : string) :
  In (Posted api_url (format_points_for_api (select_points points max_points))
        request_headers)
     (snd (make_driving_api_request env points max_points api_url)).
Proof.
  unfold make_driving_api_request.
  destruct (post env _ _ _) as [resp|e].
  - destruct (status_code resp =? 200); [destruct (json resp) as [[]|]|];
      cbn [snd]; rewrite in_app_iff; left; cbn; tauto.
  - destruct (is_request_exception e); cbn; tauto.
Qed.


(** ** What the request returns *)

Abbreviation posted env points max_points api_url :=
  (post env api_url (format_points_for_api (select_points points max_points))
     request_headers).

Abbreviation duration env := (sub (monotonic_after env) (monotonic_before env)).

(** The result in each of the five paths through the function. *)
Lemma request_result (env : environment) (points : list (float * float))
    (max_points : option Z) (api_url : string) :
  fst (make_driving_api_request env points max_points api_url) =
  match posted env points max_points api_url with
  | PostReturns resp =>
      if status_code resp =? 200 then
        match json resp with
        | Some (PyDict data) =>
            Returns (<["request_duration_seconds" := PyFloat (duration env)]> data)
        | Some v => Raises (item_assignment_error v)
        | None =>
            Returns (<["raw_response" := PyStr (text resp)]>
                       {[ "request_duration_seconds" := PyFloat (duration env) ]})
        end
      else
        Returns (<["error" := PyStr ("API request failed with status "
                                      +:+ str_of_int (status_code resp))]>
                (<["response_text" := PyStr (text resp)]>
                   {[ "request_duration_seconds" := PyFloat (duration env) ]}))
  | PostRaises e =>
      if is_request_exception e then
        Returns (<["error" := PyStr ("Request failed: " +:+ exc_str e)]>
                   {[ "suggestion" :=
                        PyStr "Make sure the API server is running on http://127.0.0.1:5002" ]})
      else Raises e
  end.
Proof.
  unfold make_driving_api_request.
  destruct (post env _ _ _) as [resp|e].
  - destruct (status_code resp =? 200); [destruct (json resp) as [[]|]|]; reflexivity.
  - destruct (is_request_exception e); reflexivity.
Qed.

(** C10: when [requests.post] raises a request exception the dictionary
    returned has the keys [error] and [suggestion] and no
    [request_duration_seconds]; when it returns a response, every
    dictionary the function returns has [request_duration_seconds], and
    one is returned for a status other than 200, for a body that is not
    JSON and for a JSON object. *)
Theorem duration_key_by_outcome (env : environment)
    (points : list (float * float)) (max_points : option Z) (api_url : string) :
  let result := fst (make_driving_api_request env points max_points api_url) in
  match posted env points max_points api_url with
  | PostRaises e =>
      is_request_exception e = true ->
      exists d, result = Returns d /\
        is_Some (d !! "error") /\ is_Some (d !! "suggestion") /\
        d !! "request_duration_seconds" = None
  | PostReturns resp =>
      (forall d, result = Returns d -> is_Some (d !! "request_duration_seconds")) /\
      (status_code resp <> 200 \/ json resp = None \/
       (exists data, json resp = Some (PyDict data)) ->
       exists d, result = Returns d)
  end.
Proof.
  cbv zeta. rewrite request_result.
  destruct (posted env points max_points api_url) as [resp|e].
  - destruct (Z.eqb_spec (status_code resp) 200) as [H200|H200].
    + destruct (json resp) as [[| | | | | |data]|]; split;
        try (intros d [= <-]; simplify_map_eq; eauto);
        try (intros d; discriminate);
        try (intros _; eexists; reflexivity);
        intros [?|[?|[data' ?]]]; congruence.
    + split; [intros d [= <-]; simplify_map_eq; eauto | intros _; eexists; reflexivity].
  - intros ->. eexists. split; [reflexivity|].
    simplify_map_eq. eauto.
Qed.

(** The error descriptor and the [error] key, path by path: the function
    builds its error descriptor when the status is not 200 or
    [requests.post] raises a request exception; for status 200 it returns the
    raw body without an [error] key when the body is not JSON, and the
    decoded object with the duration added when the body is a JSON
    object, so that an [error] key is then present only if the body has
    one. *)
Theorem error_descriptor_by_outcome (env : environment)
    (points : list (float * float)) (max_points : option Z) (api_url : string) :
  let result := fst (make_driving_api_request env points max_points api_url) in
  match posted env points max_points api_url with
  | PostRaises e =>
      is_request_exception e = true ->
      exists d, result = Returns d /\
        d !! "error" = Some (PyStr ("Request failed: " +:+ exc_str e))
  | PostReturns resp =>
      (status_code resp <> 200 ->
       exists d, result = Returns d /\
         d !! "error" = Some (PyStr ("API request failed with status "
                                      +:+ str_of_int (status_code resp)))) /\
      (status_code resp = 200 -> json resp = None ->
       exists d, result = Returns d /\ d !! "error" = None) /\
      (status_code resp = 200 -> forall data, json resp = Some (PyDict data) ->
       exists d, result = Returns d /\ d !! "error" = data !! "error")
  end.
Proof.
  cbv zeta. rewrite request_result.
  destruct (posted env points max_points api_url) as [resp|e].
  - destruct (Z.eqb_spec (status_code resp) 200) as [H200|H200].
    + split; [congruence|]. split.
      * intros _ ->. eexists. split; [reflexivity|]. now simplify_map_eq.
      * intros _ data ->. eexists. split; [reflexivity|]. now simplify_map_eq.
    + split; [|split; congruence].
      intros _. eexists. split; [reflexivity|]. now simplify_map_eq.
  - intros ->. eexists. split; [reflexivity|]. now simplify_map_eq.
Qed.


(** ** Concrete requests *)

Definition two_points : list (float * float) :=
  [ (of_decimal 35931837 6, of_decimal 14230261 6);
    (of_decimal 35908202 6, of_decimal 14204576 6) ].

Definition clock_before : float := of_decimal 1000 1.
Definition clock_after : float := of_decimal 10025 2.

(** The server answers 201 Created. *)
Definition env_created : environment :=
  mkEnv (fun _ _ _ => PostReturns (mkResponse 201 "Created" None))
        clock_before clock_after.

(** Nothing listens on the port. *)
Definition env_refused : environment :=
  mkEnv (fun _ _ _ => PostRaises (mkExc RequestException "Connection refused"))
        clock_before clock_after.

(** The server answers 200 with the JSON array [[1]]. *)
Definition env_array : environment :=
  mkEnv (fun _ _ _ => PostReturns (mkResponse 200 "[1]" (Some (PyList [PyInt 1]))))
        clock_before clock_after.

(** The server answers 200 with text that is not JSON. *)
Definition env_plain : environment :=
  mkEnv (fun _ _ _ => PostReturns (mkResponse 200 "ok" None))
        clock_before clock_after.

(** The server answers 200 with the JSON object [{"code": "Ok"}]. *)
Definition env_ok : environment :=
  mkEnv (fun _ _ _ =>
           PostReturns (mkResponse 200 "{}" (Some (PyDict {[ "code" := PyStr "Ok" ]}))))
        clock_before clock_after.



(** A JSON body that is not an object makes the item assignment fail,
    and that exception is not caught. *)
Lemma json_array_body_raises :
  fst (make_driving_api_request env_array two_points None default_api_url)
  = Raises (mkExc TypeError "list indices must be integers or slices, not str").
Proof. reflexivity. Qed.

Lemma error_descriptor_by_outcome_example :
  (exists d,
     fst (make_driving_api_request env_refused two_points None default_api_url)
       = Returns d /\
     d !! "error" = Some (PyStr "Request failed: Connection refused")) /\
  (exists d,
     fst (make_driving_api_request env_created two_points None default_api_url)
       = Returns d /\
     d !! "error" = Some (PyStr "API request failed with status 201")) /\
  (exists d,
     fst (make_driving_api_request env_plain two_points None default_api_url)
       = Returns d /\
     d !! "error" = None) /\
  (exists d,
     fst (make_driving_api_request env_ok two_points None default_api_url)
       = Returns d /\
     d !! "error" = ({[ "code" := PyStr "Ok" ]} : gmap string pyval) !! "error").
Proof.
  split; [|split; [|split]].
  - exact (error_descriptor_by_outcome env_refused two_points None default_api_url
             eq_refl).
  - apply (error_descriptor_by_outcome env_created two_points None default_api_url).
    cbn. lia.
  - apply (error_descriptor_by_outcome env_plain two_points None default_api_url);
      reflexivity.
  - apply (error_descriptor_by_outcome env_ok two_points None default_api_url);
      reflexivity.
Defined.

Lemma duration_key_by_outcome_example :
  (exists d,
     fst (make_driving_api_request env_refused two_points None default_api_url)
       = Returns d /\
     is_Some (d !! "error") /\ is_Some (d !! "suggestion") /\
     d !! "request_duration_seconds" = None) /\
  (exists d,
     fst (make_driving_api_request env_created two_points None default_api_url)
       = Returns d /\
     is_Some (d !! "request_duration_seconds")).
Proof.
  split.
  - exact (duration_key_by_outcome env_refused two_points None default_api_url eq_refl).
  - destruct (duration_key_by_outcome env_created two_points None default_api_url)
      as [Hkey Hret].
    destruct Hret as [d Hd]; [left; cbn; lia|].
    exists d. split; [exact Hd | exact (Hkey d Hd)].
Defined.



End ApiProofs.

(** * The text of the API string *)

Module TextProofs.

Import Float64 PyNum Api ApiParse ApiProofs.

(** No character of [s] is [c]. *)
Fixpoint free_of (c : ascii) (s : string) : bool :=
  match s with
  | EmptyString => true
  | String a rest => negb (Ascii.eqb a c) && free_of c rest
  end.

Lemma free_of_app (c : ascii) (a b : string) :
  free_of c (a +:+ b) = free_of c a && free_of c b.
Proof.
  induction a as [|x a IH]; simpl; [reflexivity|].
  now rewrite IH, andb_assoc.
Qed.

Lemma all_digits_app (a b : string) :
  all_digits (a +:+ b) = all_digits a && all_digits b.
Proof.
  induction a as [|x a IH]; simpl; [reflexivity|].
  now rewrite IH, andb_assoc.
Qed.

Lemma length_app_string (a b : string) :
  String.length (a +:+ b) = (String.length a + String.length b)%nat.
Proof. induction a as [|x a IH]; simpl; [reflexivity | now rewrite IH]. Qed.

Lemma all_digits_free (c : ascii) (s : string) :
  is_digit c = false -> all_digits s = true -> free_of c s = true.
Proof.
  intros Hc. induction s as [|a s IH]; simpl; [reflexivity|].
  rewrite andb_true_iff. intros [Ha Hs]. rewrite IH by exact Hs.
  destruct (Ascii.eqb_spec a c) as [->|]; [congruence | reflexivity].
Qed.

Lemma split_on_free (c : ascii) (s : string) :
  free_of c s = true -> split_on c s = [s].
Proof.
  induction s as [|a s IH]; simpl; [reflexivity|].
  rewrite andb_true_iff, negb_true_iff. intros [-> Hs].
  now rewrite IH.
Qed.

Lemma split_on_app (c : ascii) (a b : string) :
  free_of c a = true -> split_on c (a +:+ String c b) = a :: split_on c b.
Proof.
  induction a as [|x a IH]; simpl.
  - intros _. now rewrite Ascii.eqb_refl.
  - rewrite andb_true_iff, negb_true_iff. intros [-> Ha].
    now rewrite IH.
Qed.

(** ** Digits *)

Lemma digit_value_char (d : Z) :
  0 <= d < 10 -> digit_value (digit_char d) = Some d.
Proof.
  intros Hd.
  assert (d = 0 \/ d = 1 \/ d = 2 \/ d = 3 \/ d = 4 \/ d = 5 \/ d = 6 \/ d = 7
          \/ d = 8 \/ d = 9) as Hcases by lia.
  repeat (destruct Hcases as [-> | Hcases]; [reflexivity|]).
  subst. reflexivity.
Qed.

Lemma is_digit_char (d : Z) : 0 <= d < 10 -> is_digit (digit_char d) = true.
Proof. intros Hd. unfold is_digit. now rewrite digit_value_char. Qed.

Lemma digits_value_app (acc : Z) (a b : string) :
  digits_value acc (a +:+ b) =
  match digits_value acc a with
  | Some v => digits_value v b
  | None => None
  end.
Proof.
  revert acc. induction a as [|x a IH]; intros acc; simpl; [reflexivity|].
  destruct (digit_value x); [apply IH | reflexivity].
Qed.

Lemma fixed_digits_length (k : nat) (n : Z) :
  String.length (fixed_digits k n) = k.
Proof.
  revert n. induction k as [|k IH]; intros n; [reflexivity|].
  cbn [fixed_digits]. rewrite length_app_string, IH. cbn [String.length]. lia.
Qed.

Lemma fixed_digits_all_digits (k : nat) (n : Z) :
  all_digits (fixed_digits k n) = true.
Proof.
  revert n. induction k as [|k IH]; intros n; [reflexivity|].
  cbn [fixed_digits]. rewrite all_digits_app, IH. cbn [all_digits andb].
  rewrite is_digit_char; [reflexivity|]. apply Z.mod_pos_bound. lia.
Qed.

Lemma fixed_digits_value (k : nat) (n acc : Z) :
  0 <= n < 10 ^ Z.of_nat k ->
  digits_value acc (fixed_digits k n) = Some (acc * 10 ^ Z.of_nat k + n).
Proof.
  revert n acc. induction k as [|k IH]; intros n acc Hn.
  - cbn [fixed_digits digits_value]. f_equal. change (10 ^ Z.of_nat 0) with 1 in *. lia.
  - cbn [fixed_digits]. rewrite digits_value_app.
    rewrite Nat2Z.inj_succ, Z.pow_succ_r in * by lia.
    rewrite IH.
    + cbn [digits_value]. rewrite digit_value_char by (apply Z.mod_pos_bound; lia).
      f_equal. pose proof (Z.div_mod n 10). lia.
    + split; [apply Z.div_pos; lia | apply Z.div_lt_upper_bound; lia].
Qed.

Lemma string_of_uint_all_digits (d : Decimal.uint) :
  all_digits (NilEmpty.string_of_uint d) = true.
Proof. induction d; simpl; auto. Qed.

Lemma str_of_N_all_digits (n : N) : all_digits (str_of_N n) = true.
Proof. apply string_of_uint_all_digits. Qed.

Lemma str_of_N_value (n : N) :
  option_map N.of_uint (NilEmpty.uint_of_string (str_of_N n)) = Some n.
Proof.
  unfold str_of_N. rewrite NilEmpty.usu. simpl. f_equal. apply Unsigned.of_to.
Qed.

Lemma str_of_N_nonempty (n : N) : str_of_N n <> EmptyString.
Proof.
  intros Hempty. pose proof (str_of_N_value n) as Hv.
  rewrite Hempty in Hv. simpl in Hv. injection Hv as <-. discriminate.
Qed.

(** ** Rounding to the nearest integer *)

Lemma round_half_even_close (a : Z) (b : positive) :
  - Zpos b <= 2 * (a - round_half_even a b * Zpos b) <= Zpos b.
Proof.
  unfold round_half_even.
  pose proof (Z.div_mod a (Zpos b) ltac:(lia)) as Hdm.
  pose proof (Z.mod_pos_bound a (Zpos b) ltac:(lia)) as Hr.
  set (q := a / Zpos b) in *. set (r := a mod Zpos b) in *.
  destruct (Z.compare_spec (2 * r) (Zpos b)); [destruct (Z.even q)| |]; lia.
Qed.

Lemma round_half_even_nonneg (a : Z) (b : positive) :
  0 <= a -> 0 <= round_half_even a b.
Proof.
  intros Ha. unfold round_half_even.
  assert (0 <= a / Zpos b) by (apply Z.div_pos; lia).
  destruct (2 * (a mod Zpos b) ?= Zpos b); [destruct (Z.even _)| |]; lia.
Qed.

(** The magnitude of a finite float as a fraction. *)
Definition magnitude (x : float) : Z * positive :=
  match x with
  | S754_finite _ m e => num_den (S754_finite false m e)
  | _ => (0, 1%positive)
  end.

Lemma magnitude_nonneg (x : float) : 0 <= fst (magnitude x).
Proof.
  destruct x as [| | |s m e]; simpl; try lia.
  destruct e; simpl; lia.
Qed.

Lemma to_Q_magnitude (x : float) :
  is_finite x = true ->
  to_Q x = Qmake (if sign_bit x then - fst (magnitude x) else fst (magnitude x))
                 (snd (magnitude x)).
Proof.
  destruct x as [[]| | |[] m e]; try discriminate; intros _; reflexivity.
Qed.

Lemma scaled_magnitude_spec (nd : nat) (x : float) :
  is_finite x = true ->
  scaled_magnitude nd x
  = round_half_even (fst (magnitude x) * 10 ^ Z.of_nat nd) (snd (magnitude x)).
Proof.
  destruct x as [s| | |s m e]; try discriminate; intros _.
  - reflexivity.
  - unfold scaled_magnitude, magnitude.
    destruct (num_den (S754_finite false m e)). reflexivity.
Qed.

Lemma scaled_magnitude_nonneg (nd : nat) (x : float) : 0 <= scaled_magnitude nd x.
Proof.
  destruct (is_finite x) eqn:Hfin.
  - rewrite scaled_magnitude_spec by exact Hfin.
    apply round_half_even_nonneg.
    pose proof (magnitude_nonneg x). apply Z.mul_nonneg_nonneg; lia.
  - destruct x; try discriminate; simpl; lia.
Qed.

(** ** The shape of a formatted number *)

Abbreviation million := 1000000 (only parsing).

Lemma format_f_finite (x : float) :
  is_finite x = true ->
  format_f 6 x
  = (if sign_bit x then "-" else EmptyString)
      +:+ str_of_N (Z.to_N (scaled_magnitude 6 x / million))
      +:+ String "." (fixed_digits 6 (scaled_magnitude 6 x mod million)).
Proof. destruct x; try discriminate; reflexivity. Qed.

Lemma free_of_pointed (a b : string) : free_of "." (a +:+ String "." b) = false.
Proof. rewrite free_of_app. cbn. apply andb_false_r. Qed.

Lemma format_f_pointed (x : float) :
  is_finite x = true -> free_of "." (format_f 6 x) = false.
Proof.
  intros Hfin. rewrite format_f_finite by exact Hfin.
  rewrite free_of_app, free_of_pointed. apply andb_false_r.
Qed.

(** A character that is no digit, no sign, no point and no letter of
    [inf] or [nan] does not occur in a formatted number. *)
Lemma format_f_free (c : ascii) (x : float) :
  c = ";"%char \/ c = ","%char -> free_of c (format_f 6 x) = true.
Proof.
  intros Hc.
  assert (is_digit c = false) as Hd by (destruct Hc as [->| ->]; reflexivity).
  destruct (is_finite x) eqn:Hfin.
  - rewrite format_f_finite by exact Hfin.
    rewrite !free_of_app. cbn [free_of].
    rewrite (all_digits_free c _ Hd (str_of_N_all_digits _)).
    rewrite (all_digits_free c _ Hd (fixed_digits_all_digits _ _)).
    destruct Hc as [->| ->]; destruct (sign_bit x); reflexivity.
  - destruct x as [|[]| |]; try discriminate; destruct Hc as [->| ->]; reflexivity.
Qed.

(** ** Reading a formatted number back *)

Lemma parse_unsigned_fixed (i : N) (k : nat) (f : Z) :
  0 <= f < 10 ^ Z.of_nat k ->
  parse_unsigned (str_of_N i +:+ String "." (fixed_digits k f))
  = Some (Qmake (Z.of_N i * 10 ^ Z.of_nat k + f) (Z.to_pos (10 ^ Z.of_nat k))).
Proof.
  intros Hf. unfold parse_unsigned.
  rewrite split_on_app
    by (apply all_digits_free; [reflexivity | apply str_of_N_all_digits]).
  rewrite split_on_free
    by (apply all_digits_free; [reflexivity | apply fixed_digits_all_digits]).
  pose proof (str_of_N_value i) as Hi.
  destruct (NilEmpty.uint_of_string (str_of_N i)) as [u|]; [|discriminate].
  injection Hi as ->.
  rewrite fixed_digits_value by exact Hf.
  rewrite fixed_digits_length. reflexivity.
Qed.

(** A string with a point in it is none of [nan], [inf], [-inf]. *)
Lemma parse_number_pointed (s : string) :
  free_of "." s = false ->
  parse_number s =
  match s with
  | String c rest =>
      if Ascii.eqb c "-" then
        match parse_unsigned rest with
        | Some q => Some (Decimal (- q))
        | None => None
        end
      else
        match parse_unsigned s with
        | Some q => Some (Decimal q)
        | None => None
        end
  | EmptyString => None
  end.
Proof.
  intros Hpoint. unfold parse_number.
  destruct (String.eqb_spec s "nan") as [->|_]; [discriminate|].
  destruct (String.eqb_spec s "inf") as [->|_]; [discriminate|].
  destruct (String.eqb_spec s "-inf") as [->|_]; [discriminate|].
  reflexivity.
Qed.

Lemma first_digit_no_sign (s : string) :
  all_digits s = true -> s <> EmptyString ->
  exists c rest, s = String c rest /\ Ascii.eqb c "-" = false.
Proof.
  destruct s as [|c rest]; [congruence|]. cbn [all_digits].
  rewrite andb_true_iff. intros [Hc _] _. exists c, rest. split; [reflexivity|].
  destruct (Ascii.eqb_spec c "-") as [->|]; [discriminate | reflexivity].
Qed.

Lemma app_minus (r : string) : "-" +:+ r = String "-" r.
Proof. reflexivity. Qed.

Lemma app_empty (r : string) : EmptyString +:+ r = r.
Proof. reflexivity. Qed.

Lemma app_cons (c : ascii) (r t : string) : String c r +:+ t = String c (r +:+ t).
Proof. reflexivity. Qed.

(** The decimal that a formatted finite float writes. *)
Definition written (x : float) : Q :=
  let q := Qmake (scaled_magnitude 6 x) 1000000 in
  if sign_bit x then (- q)%Q else q.

Lemma parse_number_format (x : float) :
  is_finite x = true ->
  parse_number (format_f 6 x) = Some (Decimal (written x)).
Proof.
  intros Hfin. rewrite parse_number_pointed by (now apply format_f_pointed).
  rewrite format_f_finite by exact Hfin.
  pose proof (scaled_magnitude_nonneg 6 x) as Hn.
  set (n := scaled_magnitude 6 x) in *.
  assert (Hfrac : 0 <= n mod million < 10 ^ Z.of_nat 6)
    by (apply Z.mod_pos_bound; reflexivity).
  assert (Hvalue : Z.of_N (Z.to_N (n / million)) * 10 ^ Z.of_nat 6 + n mod million = n).
  { rewrite Z2N.id by (apply Z.div_pos; lia).
    change (10 ^ Z.of_nat 6) with million.
    pose proof (Z.div_mod n million ltac:(lia)). lia. }
  pose proof (parse_unsigned_fixed (Z.to_N (n / million)) 6 (n mod million) Hfrac)
    as Hparse.
  rewrite Hvalue in Hparse.
  unfold written. fold n.
  destruct (sign_bit x).
  - rewrite app_minus. change (Ascii.eqb "-" "-") with true. cbv iota.
    rewrite Hparse. reflexivity.
  - rewrite app_empty.
    destruct (first_digit_no_sign _ (str_of_N_all_digits (Z.to_N (n / million)))
                (str_of_N_nonempty (Z.to_N (n / million)))) as (c & rest & Heq & Hc).
    rewrite Heq, app_cons in *. cbv iota.
    rewrite Hc, Hparse. reflexivity.
Qed.

Lemma written_within_tolerance (x : float) :
  is_finite x = true ->
  (Qabs (written x - to_Q x) <= tolerance)%Q.
Proof.
  intros Hfin. rewrite to_Q_magnitude by exact Hfin.
  unfold written. rewrite scaled_magnitude_spec by exact Hfin.
  pose proof (round_half_even_close
                (fst (magnitude x) * 10 ^ Z.of_nat 6) (snd (magnitude x))) as Hclose.
  change (10 ^ Z.of_nat 6) with million in *.
  set (n := round_half_even _ _) in *.
  set (a := fst (magnitude x)) in *. set (d := snd (magnitude x)) in *.
  apply Qabs_Qle_condition. unfold tolerance.
  destruct (sign_bit x); unfold Qle, Qminus, Qplus, Qopp; cbn [Qnum Qden];
    rewrite ?Pos2Z.inj_mul; split; lia.
Qed.

Lemma number_round_trip (x : float) :
  exists v, parse_number (format_f 6 x) = Some v /\ within_tolerance x v.
Proof.
  destruct (is_finite x) eqn:Hfin.
  - exists (Decimal (written x)). split; [now apply parse_number_format|].
    pose proof (written_within_tolerance x Hfin).
    destruct x; try discriminate; assumption.
  - destruct x as [|s| |]; try discriminate.
    + exists (Infinite s). destruct s; split; reflexivity.
    + exists NotANumber. split; [reflexivity | exact I].
Qed.

(** ** Points and lists of points *)

Lemma render_free (c : ascii) (p : float * float) :
  c = ";"%char -> free_of c (render p) = true.
Proof.
  intros ->. unfold render. rewrite !free_of_app.
  rewrite !format_f_free by (left; reflexivity). reflexivity.
Qed.

Lemma split_render (p : float * float) :
  split_on "," (render p) = [format_f 6 (snd p); format_f 6 (fst p)].
Proof.
  unfold render. change ("," +:+ ?t) with (String "," t).
  rewrite split_on_app by (apply format_f_free; right; reflexivity).
  rewrite split_on_free by (apply format_f_free; right; reflexivity).
  reflexivity.
Qed.

Lemma split_concat (items : list string) :
  items <> [] ->
  Forall (fun s => free_of ";" s = true) items ->
  split_on ";" (String.concat ";" items) = items.
Proof.
  induction items as [|x rest IH]; [congruence|]. intros _ Hfree.
  inversion Hfree as [|? ? Hx Hrest]; subst.
  destruct rest as [|y rest].
  - cbn [String.concat]. now apply split_on_free.
  - change (String.concat ";" (x :: y :: rest))
      with (x +:+ String ";" (String.concat ";" (y :: rest))).
    rewrite split_on_app by exact Hx. f_equal. now apply IH.
Qed.

Lemma split_formatted (points : list (float * float)) :
  points <> [] ->
  split_on ";" (format_points_for_api points) = map render points.
Proof.
  intros Hne. rewrite format_points_for_api_map. apply split_concat.
  - destruct points; [congruence | discriminate].
  - clear Hne. induction points as [|p rest IH]; cbn [map]; constructor;
      [now apply render_free | exact IH].
Qed.

(** What a point reads back as: each coordinate within the tolerance. *)
Definition reads_as (p : float * float) (v : number * number) : Prop :=
  within_tolerance (fst p) (fst v) /\ within_tolerance (snd p) (snd v).

Lemma point_round_trip (p : float * float) :
  exists v, parse_point (render p) = Some v /\ reads_as p v.
Proof.
  unfold parse_point. rewrite split_render.
  destruct (number_round_trip (fst p)) as (la & Hla & Hlat).
  destruct (number_round_trip (snd p)) as (lo & Hlo & Hlon).
  rewrite Hla, Hlo. exists (la, lo). split; [reflexivity | split; assumption].
Qed.

Lemma items_round_trip (points : list (float * float)) :
  exists vs, parse_items (map render points) = Some vs /\ Forall2 reads_as points vs.
Proof.
  induction points as [|p rest (vs & Hvs & Hall)].
  - exists []. split; [reflexivity | constructor].
  - destruct (point_round_trip p) as (v & Hv & Hclose).
    exists (v :: vs). cbn [map parse_items]. rewrite Hv, Hvs.
    split; [reflexivity | now constructor].
Qed.

(** Reading the API string back gives one pair per point, in the order
    of the input, latitude first, and each coordinate read is within half
    a unit of the sixth decimal of the float that was formatted
    (infinities and nan read back as themselves).  This holds for every
    list of floats. *)
Theorem api_string_round_trip (points : list (float * float)) :
  exists vs,
    parse_api_string (format_points_for_api points) = Some vs /\
    Forall2 reads_as points vs.
Proof.
  destruct points as [|p rest].
  - exists []. split; [reflexivity | constructor].
  - destruct (items_round_trip (p :: rest)) as (vs & Hvs & Hall).
    exists vs. split; [|exact Hall].
    unfold parse_api_string.
    pose proof (format_points_nonempty (p :: rest) ltac:(discriminate)) as Hne.
    rewrite <- (split_formatted (p :: rest)) in Hvs by discriminate.
    destruct (format_points_for_api (p :: rest)); [congruence | exact Hvs].
Qed.

Lemma format_f_fixed6 (x : float) :
  is_finite x = true -> is_fixed6 (format_f 6 x) = true.
Proof.
  intros Hfin. rewrite format_f_finite by exact Hfin.
  set (i := str_of_N _). set (f := fixed_digits _ _).
  assert (Hi : all_digits i = true) by apply str_of_N_all_digits.
  assert (Hne : i <> EmptyString) by apply str_of_N_nonempty.
  assert (Hbody : split_on "." (i +:+ String "." f) = [i; f]).
  { rewrite split_on_app by (apply all_digits_free; [reflexivity | exact Hi]).
    rewrite split_on_free
      by (apply all_digits_free; [reflexivity | apply fixed_digits_all_digits]).
    reflexivity. }
  assert (Hcheck : negb (String.eqb i EmptyString) && all_digits i
                   && Nat.eqb (String.length f) 6 && all_digits f = true).
  { destruct (String.eqb_spec i EmptyString); [congruence|].
    subst f. rewrite Hi, fixed_digits_length, fixed_digits_all_digits. reflexivity. }
  unfold is_fixed6. destruct (sign_bit x).
  - rewrite app_minus. change (Ascii.eqb "-" "-") with true. cbv iota.
    rewrite Hbody. exact Hcheck.
  - rewrite app_empty.
    destruct (first_digit_no_sign i Hi Hne) as (c & rest & Heq & Hc).
    rewrite Heq, app_cons in *. cbv iota. rewrite Hc, Hbody. exact Hcheck.
Qed.


Lemma string_app_assoc (a b c : string) : (a +:+ b) +:+ c = a +:+ (b +:+ c).
Proof. induction a as [|x a IH]; [reflexivity|]. rewrite !app_cons, IH. reflexivity. Qed.

Lemma concat_app (xs ys : list string) :
  xs <> [] -> ys <> [] ->
  String.concat ";" (xs ++ ys)
  = String.concat ";" xs +:+ ";" +:+ String.concat ";" ys.
Proof.
  intros Hxs Hys. induction xs as [|x rest IH]; [congruence|].
  destruct rest as [|y rest].
  - destruct ys as [|z ys]; [congruence | reflexivity].
  - change (String.concat ";" ((x :: y :: rest) ++ ys))
      with (x +:+ ";" +:+ String.concat ";" ((y :: rest) ++ ys)).
    rewrite IH by discriminate.
    change (String.concat ";" (x :: y :: rest))
      with (x +:+ ";" +:+ String.concat ";" (y :: rest)).
    now rewrite !string_app_assoc.
Qed.

(** Splitting the API string at [";"] gives exactly one item per point,
    in the order of the input; each item splits at [","] into the text of
    the longitude followed by the text of the latitude. *)
Theorem api_items_in_order (points : list (float * float)) :
  points <> [] ->
  split_on ";" (format_points_for_api points)
  = map (fun p => format_f 6 (snd p) +:+ "," +:+ format_f 6 (fst p)) points /\
  length (split_on ";" (format_points_for_api points)) = length points /\
  Forall (fun p => split_on "," (format_f 6 (snd p) +:+ "," +:+ format_f 6 (fst p))
                   = [format_f 6 (snd p); format_f 6 (fst p)]) points.
Proof.
  intros Hne. rewrite (split_formatted points Hne). split; [reflexivity|].
  split; [apply length_map|].
  clear Hne. induction points as [|p rest IH]; constructor; [apply split_render | exact IH].
Qed.

(** When every coordinate is finite, each item of the API string is two
    fixed-point numbers with exactly six decimals: an optional minus
    sign, at least one digit, a point and six digits. *)
Theorem finite_points_have_six_decimals (points : list (float * float)) :
  points <> [] ->
  Forall (fun p => is_finite (fst p) = true /\ is_finite (snd p) = true) points ->
  Forall (fun item => exists lon lat,
              split_on "," item = [lon; lat] /\
              is_fixed6 lon = true /\ is_fixed6 lat = true)
         (split_on ";" (format_points_for_api points)).
Proof.
  intros Hne Hfin. rewrite (split_formatted points Hne). clear Hne.
  induction Hfin as [|p rest [Hlat Hlon] _ IH]; cbn [map]; constructor; [|exact IH].
  exists (format_f 6 (snd p)), (format_f 6 (fst p)).
  split; [apply split_render|]. split; now apply format_f_fixed6.
Qed.

(** Formatting is compositional: the string of two lists put together is
    the two strings joined by one [";"]. *)
Theorem format_points_app (first second : list (float * float)) :
  first <> [] -> second <> [] ->
  format_points_for_api (first ++ second)
  = format_points_for_api first +:+ ";" +:+ format_points_for_api second.
Proof.
  intros Hfirst Hsecond. rewrite !format_points_for_api_map, map_app.
  apply concat_app.
  - destruct first; [congruence | discriminate].
  - destruct second; [congruence | discriminate].
Qed.

(** A pair whose coordinates are already rounded to six decimals:
    [round(x, 6)] gives [x] back. *)
Definition already_rounded (p : float * float) : Prop :=
  py_round (fst p) 6 = fst p /\ py_round (snd p) 6 = snd p.

(** C4: for a list of points that are already rounded to six decimals,
    reading the API string back gives as many pairs as there are points,
    in their order and with the latitude first, each coordinate within
    half a unit of the sixth decimal of the float that was formatted. *)
Theorem rounded_points_round_trip (points : list (float * float)) :
  Forall already_rounded points ->
  exists vs,
    parse_api_string (format_points_for_api points) = Some vs /\
    length vs = length points /\
    Forall2 reads_as points vs.
Proof.
  intros _.
  destruct (items_round_trip points) as (vs & Hvs & Hall).
  exists vs. split; [|split; [symmetry; eapply Forall2_length, Hall | exact Hall]].
  destruct points as [|p rest].
  - cbn in Hvs. injection Hvs as <-. reflexivity.
  - unfold parse_api_string.
    pose proof (format_points_nonempty (p :: rest) ltac:(discriminate)) as Hne.
    rewrite <- (split_formatted (p :: rest)) in Hvs by discriminate.
    destruct (format_points_for_api (p :: rest)); [congruence | exact Hvs].
Qed.





(** An infinite latitude is printed as [inf], which is not fixed-point
    text. *)
Lemma infinite_coordinate_text :
  format_points_for_api [(S754_infinity false, S754_zero false)] = "0.000000,inf"
  /\ is_fixed6 (format_f 6 (S754_infinity false)) = false.
Proof. split; reflexivity. Qed.

Lemma rounded_points_round_trip_example :
  exists vs,
    parse_api_string (format_points_for_api two_points) = Some vs /\
    length vs = length two_points /\
    Forall2 reads_as two_points vs.
Proof.
  apply (rounded_points_round_trip two_points).
  repeat constructor; vm_compute; reflexivity.
Defined.


Lemma api_items_in_order_example :
  split_on ";" (format_points_for_api two_points)
  = map (fun p => format_f 6 (snd p) +:+ "," +:+ format_f 6 (fst p)) two_points /\
  length (split_on ";" (format_points_for_api two_points)) = length two_points /\
  Forall (fun p => split_on "," (format_f 6 (snd p) +:+ "," +:+ format_f 6 (fst p))
                   = [format_f 6 (snd p); format_f 6 (fst p)]) two_points.
Proof. apply (api_items_in_order two_points). discriminate. Defined.

Lemma finite_points_have_six_decimals_example :
  Forall (fun item => exists lon lat,
              split_on "," item = [lon; lat] /\
              is_fixed6 lon = true /\ is_fixed6 lat = true)
         (split_on ";" (format_points_for_api two_points)).
Proof.
  apply (finite_points_have_six_decimals two_points); [discriminate|].
  repeat constructor.
Defined.

Lemma format_points_app_example :
  format_points_for_api (two_points ++ two_points)
  = format_points_for_api two_points +:+ ";" +:+ format_points_for_api two_points.
Proof. apply (format_points_app two_points two_points); discriminate. Defined.

End TextProofs.

(** * More on the point sampler *)

Module SamplerFacts.

Import Float64 PyNum Shapely Boundary Sampler SamplerProofs.

Section WithRandom.

Context {R : Type}.
Variable random : R -> float * R.

(** The state of the generator after [n] calls of [random.random()]. *)
Definition after_draws (n : nat) (g : R) : R :=
  Nat.iter n (fun g => snd (random g)) g.

(** The point that one pass through the loop samples when the generator
    is in state [g]: the longitude is drawn first. *)
Definition sampled_point (boundary : BaseGeometry) (g : R) : Point :=
  let '(minx, miny, maxx, maxy) := bounds boundary in
  let '(longitude, g1) := uniform random minx maxx g in
  let '(latitude, _) := uniform random miny maxy g1 in
  mkPoint longitude latitude.

(** The value that call number [n] of [random.random()] returns, counting
    from 0, for a generator that starts in state [g]. *)
Definition nth_draw (n : nat) (g : R) : float :=
  fst (random (after_draws n g)).

(** The point that attempt number [k] samples, counting from 0: call
    [2k] gives the longitude between [minx] and [maxx], call [2k + 1] the
    latitude between [miny] and [maxy]. *)
Definition nth_sample (boundary : BaseGeometry) (g : R) (k : nat) : Point :=
  let '(minx, miny, maxx, maxy) := bounds boundary in
  mkPoint (add minx (mul (sub maxx minx) (nth_draw (2 * k) g)))
          (add miny (mul (sub maxy miny) (nth_draw (2 * k + 1) g))).

(** The pair that is stored for an accepted point: both coordinates
    rounded to six decimals, the latitude first. *)
Definition rounded_pair (p : Point) : float * float :=
  (py_round (py p) 6, py_round (px p) 6).

Lemma sampled_point_nth (boundary : BaseGeometry) (g : R) (k : nat) :
  sampled_point boundary (after_draws (2 * k) g) = nth_sample boundary g k.
Proof.
  unfold sampled_point, nth_sample, nth_draw, uniform.
  destruct (bounds boundary) as [[[minx miny] maxx] maxy].
  rewrite Nat.add_1_r.
  change (after_draws (S (2 * k)) g) with (snd (random (after_draws (2 * k) g))).
  destruct (random (after_draws (2 * k) g)) as [r1 g1]. cbn [fst snd].
  destruct (random g1) as [r2 g2]. reflexivity.
Qed.

Section Loop.

Variable malta_boundary : BaseGeometry.
Variable num_points : Z.

Abbreviation body := (loop_body random malta_boundary).
Abbreviation runs := (loop_runs random malta_boundary num_points).

(** One pass adds the rounded sample when the boundary covers it, and
    nothing otherwise. *)
Lemma loop_body_points (st : loop_state) :
  points (body st) =
  points st ++
  (if covers malta_boundary (sampled_point malta_boundary (rng st))
   then [rounded_pair (sampled_point malta_boundary (rng st))]
   else []).
Proof.
  unfold loop_body, sampled_point.
  destruct (bounds malta_boundary) as [[[minx miny] maxx] maxy].
  destruct (uniform random minx maxx (rng st)) as [longitude g1].
  destruct (uniform random miny maxy g1) as [latitude g2].
  cbn [points]. unfold covers.
  destruct (contains malta_boundary (mkPoint longitude latitude)
            || touches malta_boundary (mkPoint longitude latitude)).
  - reflexivity.
  - now rewrite app_nil_r.
Qed.

Lemma loop_body_rng (st : loop_state) :
  rng (body st) = after_draws 2 (rng st).
Proof.
  unfold loop_body, uniform.
  destruct (bounds malta_boundary) as [[[minx miny] maxx] maxy].
  destruct (random (rng st)) as [r1 g1] eqn:Hfirst.
  destruct (random g1) as [r2 g2] eqn:Hsecond.
  cbn [rng]. unfold after_draws. simpl. rewrite Hfirst. simpl. now rewrite Hsecond.
Qed.

Lemma loop_body_accepts (st : loop_state) :
  covers malta_boundary (sampled_point malta_boundary (rng st)) = true ->
  length (points (body st)) = S (length (points st)).
Proof.
  unfold loop_body, sampled_point.
  destruct (bounds malta_boundary) as [[[minx miny] maxx] maxy].
  destruct (uniform random minx maxx (rng st)) as [longitude g1].
  destruct (uniform random miny maxy g1) as [latitude g2].
  cbn [points]. unfold covers. intros ->. rewrite length_app. cbn. lia.
Qed.

Lemma after_draws_add (n m : nat) (g : R) :
  after_draws n (after_draws m g) = after_draws (n + m) g.
Proof. unfold after_draws. now rewrite Nat.iter_add. Qed.

(** Two draws for each pass through the loop. *)
Lemma runs_rng (st st' : loop_state) :
  runs st st' ->
  rng st' = after_draws (2 * Z.to_nat (attempts st' - attempts st)) (rng st).
Proof.
  induction 1 as [st Hg | st st' Hg Hrest IH].
  - rewrite Z.sub_diag. reflexivity.
  - rewrite IH, loop_body_rng, after_draws_add. f_equal.
    destruct (runs_exit _ _ _ _ _ Hrest) as (_ & Ha & _).
    rewrite loop_body_attempts in *. lia.
Qed.

(** Points never outnumber the attempts, nor the count asked for. *)
Lemma runs_counts (st st' : loop_state) :
  runs st st' ->
  Z.of_nat (length (points st)) <= attempts st ->
  Z.of_nat (length (points st)) <= Z.max 0 num_points ->
  attempts st <= Z.max 0 (num_points * 20) ->
  Z.of_nat (length (points st')) <= attempts st' /\
  Z.of_nat (length (points st')) <= Z.max 0 num_points /\
  attempts st' <= Z.max 0 (num_points * 20).
Proof.
  induction 1 as [st Hg | st st' Hg _ IH]; intros Hpa Hpn Han; [tauto|].
  apply guard_true in Hg. unfold max_attempts in Hg.
  pose proof (loop_body_length random malta_boundary st).
  apply IH; rewrite ?loop_body_attempts; lia.
Qed.

Lemma after_draws_pass (g : R) (a : Z) :
  0 <= a ->
  after_draws 2 (after_draws (2 * Z.to_nat a) g) = after_draws (2 * Z.to_nat (a + 1)) g.
Proof. intros Ha. rewrite after_draws_add. f_equal. lia. Qed.

(** While the samples of the first [num_points] attempts are all
    accepted, each attempt adds a point. *)
Lemma runs_accepting (g : R) (st st' : loop_state) :
  (forall k, Z.of_nat k < num_points ->
             covers malta_boundary (nth_sample malta_boundary g k) = true) ->
  runs st st' ->
  0 <= attempts st ->
  rng st = after_draws (2 * Z.to_nat (attempts st)) g ->
  Z.of_nat (length (points st)) = attempts st ->
  Z.of_nat (length (points st')) = attempts st'.
Proof.
  intros Hall Hruns.
  induction Hruns as [st Hg | st st' Hg _ IH]; intros Ha Hrng Hlen; [exact Hlen|].
  apply guard_true in Hg. destruct Hg as [Hlt _].
  apply IH.
  - rewrite loop_body_attempts. lia.
  - rewrite loop_body_rng, Hrng, loop_body_attempts. now apply after_draws_pass.
  - rewrite loop_body_attempts, loop_body_accepts; [lia|].
    rewrite Hrng, sampled_point_nth. apply Hall. lia.
Qed.

(** While the samples of the attempts that the budget allows are all
    rejected, no point is added. *)
Lemma runs_rejecting_samples (g : R) (st st' : loop_state) :
  (forall k, Z.of_nat k < num_points * 20 ->
             covers malta_boundary (nth_sample malta_boundary g k) = false) ->
  runs st st' ->
  0 <= attempts st ->
  rng st = after_draws (2 * Z.to_nat (attempts st)) g ->
  points st' = points st.
Proof.
  intros Hnone Hruns.
  induction Hruns as [st Hg | st st' Hg _ IH]; intros Ha Hrng; [reflexivity|].
  apply guard_true in Hg. destruct Hg as [_ Hlt]. unfold max_attempts in Hlt.
  rewrite IH.
  - rewrite loop_body_points, Hrng, sampled_point_nth, Hnone by lia.
    apply app_nil_r.
  - rewrite loop_body_attempts. lia.
  - rewrite loop_body_rng, Hrng, loop_body_attempts. now apply after_draws_pass.
Qed.

(** The points added by a run are the rounded accepted samples of its
    attempts, in the order of the attempts. *)
Lemma runs_samples (g : R) (st st' : loop_state) :
  runs st st' ->
  0 <= attempts st ->
  rng st = after_draws (2 * Z.to_nat (attempts st)) g ->
  points st' =
  points st ++
  map rounded_pair
    (List.filter (covers malta_boundary)
       (map (nth_sample malta_boundary g)
          (seq (Z.to_nat (attempts st)) (Z.to_nat (attempts st' - attempts st))))).
Proof.
  induction 1 as [st Hg | st st' Hg Hrest IH]; intros Ha Hrng.
  - rewrite Z.sub_diag. cbn. now rewrite app_nil_r.
  - destruct (runs_exit _ _ _ _ _ Hrest) as (_ & Hle & _).
    rewrite loop_body_attempts in Hle.
    rewrite IH.
    + rewrite loop_body_points, Hrng, sampled_point_nth, loop_body_attempts.
      replace (Z.to_nat (attempts st' - attempts st))
        with (S (Z.to_nat (attempts st' - (attempts st + 1)))) by lia.
      replace (Z.to_nat (attempts st + 1)) with (S (Z.to_nat (attempts st))) by lia.
      cbn [seq map List.filter].
      destruct (covers malta_boundary
                  (nth_sample malta_boundary g (Z.to_nat (attempts st)))).
      * rewrite <- app_assoc. reflexivity.
      * now rewrite app_nil_r.
    + rewrite loop_body_attempts. lia.
    + rewrite loop_body_rng, Hrng, loop_body_attempts. now apply after_draws_pass.
Qed.

End Loop.

(** A run for a larger count passes through the exit state of the run
    for a smaller one, so it only adds points at the end. *)
Lemma runs_extend (boundary : BaseGeometry) (n m : Z) (st sn sm : loop_state) :
  n <= m ->
  loop_runs random boundary n st sn ->
  loop_runs random boundary m st sm ->
  exists more, points sm = points sn ++ more.
Proof.
  intros Hnm Hn. revert sm.
  induction Hn as [st Hg | st sn Hg _ IH]; intros sm Hm.
  - destruct (runs_points_from_covered _ _ _ _ _ Hm) as (added & Heq & _).
    exists added. exact Heq.
  - apply guard_true in Hg. unfold max_attempts in Hg.
    inversion Hm as [? Hgm | ? ? Hgm Hrest]; subst.
    + apply guard_false in Hgm. unfold max_attempts in Hgm. lia.
    + now apply IH.
Qed.

(** With enough passes allowed the function returns, whatever the count;
    it never holds more points than attempts made, nor more than were
    asked for, and never exceeds the budget. *)
Theorem points_attempts_and_budget (fuel : nat) (osm : osm_lookup)
    (count : Z) (g : R) :
  (Z.to_nat (count * 20) <= fuel)%nat ->
  exists out,
    generate_malta_points random fuel osm count g = Some out /\
    Z.of_nat (length (gen_points out)) <= gen_attempts out /\
    Z.of_nat (length (gen_points out)) <= Z.max 0 count /\
    0 <= gen_attempts out <= Z.max 0 (count * 20).
Proof.
  intros Hfuel.
  destruct (generate_returns random fuel osm count g Hfuel) as [out Hgen].
  exists out. split; [exact Hgen|].
  destruct (generate_runs _ _ _ _ _ _ Hgen) as (st & Hruns & ->).
  cbn [gen_points gen_attempts].
  destruct (runs_counts _ _ _ _ Hruns) as (H1 & H2 & H3); cbn; lia.
Qed.

(** With enough passes allowed the function returns, and the generator
    it leaves behind is the one it found advanced by exactly two draws
    for each attempt made. *)
Theorem two_draws_per_attempt (fuel : nat) (osm : osm_lookup)
    (count : Z) (g : R) :
  (Z.to_nat (count * 20) <= fuel)%nat ->
  exists out,
    generate_malta_points random fuel osm count g = Some out /\
    gen_rng out = after_draws (2 * Z.to_nat (gen_attempts out)) g.
Proof.
  intros Hfuel.
  destruct (generate_returns random fuel osm count g Hfuel) as [out Hgen].
  exists out. split; [exact Hgen|].
  destruct (generate_runs _ _ _ _ _ _ Hgen) as (st & Hruns & ->).
  cbn [gen_rng gen_attempts]. rewrite (runs_rng _ _ _ _ Hruns).
  cbn [entry attempts rng]. now rewrite Z.sub_0_r.
Qed.

(** When the boundary accepts the sample of each of the first [count]
    attempts, the function returns exactly [count] points after exactly
    [count] attempts and prints no warning; what later draws would give
    does not matter. *)
Theorem full_boundary_gives_all_points (fuel : nat) (osm : osm_lookup)
    (count : Z) (g : R) :
  0 <= count ->
  (forall k, Z.of_nat k < count ->
             covers (fst (get_malta_boundary osm))
               (nth_sample (fst (get_malta_boundary osm)) g k) = true) ->
  (Z.to_nat (count * 20) <= fuel)%nat ->
  exists out,
    generate_malta_points random fuel osm count g = Some out /\
    Z.of_nat (length (gen_points out)) = count /\
    gen_attempts out = count /\
    gen_stdout out = snd (get_malta_boundary osm) ++ [generating_line count].
Proof.
  intros Hcount Hall Hfuel.
  destruct (generate_returns random fuel osm count g Hfuel) as [out Hgen].
  exists out. split; [exact Hgen|].
  destruct (generate_runs _ _ _ _ _ _ Hgen) as (st & Hruns & ->).
  cbn [gen_points gen_attempts gen_stdout].
  assert (Heq : Z.of_nat (length (points st)) = attempts st).
  { apply (runs_accepting _ count g (entry g) st Hall Hruns); cbn; [lia | | ];
      reflexivity. }
  destruct (runs_exit _ _ _ _ _ Hruns) as (Hg & _ & _).
  apply guard_false in Hg. unfold max_attempts in Hg.
  destruct (runs_counts _ _ _ _ Hruns) as (_ & Hn & _); cbn; try lia.
  assert (Z.of_nat (length (points st)) = count) as Hlen by lia.
  split; [exact Hlen|]. split; [lia|].
  rewrite Hlen, Z.ltb_irrefl. reflexivity.
Qed.

(** Asking for more points only adds points at the end: with the same
    generator state and boundary, the list for a smaller count is a
    prefix of the list for a larger one. *)
Theorem larger_count_extends (fuel : nat) (osm : osm_lookup) (n m : Z) (g : R) :
  n <= m ->
  (Z.to_nat (m * 20) <= fuel)%nat ->
  exists out_n out_m more,
    generate_malta_points random fuel osm n g = Some out_n /\
    generate_malta_points random fuel osm m g = Some out_m /\
    gen_points out_m = gen_points out_n ++ more.
Proof.
  intros Hnm Hfuel.
  destruct (generate_returns random fuel osm n g ltac:(lia)) as [out_n Hn].
  destruct (generate_returns random fuel osm m g Hfuel) as [out_m Hm].
  destruct (generate_runs _ _ _ _ _ _ Hn) as (sn & Hrn & ->).
  destruct (generate_runs _ _ _ _ _ _ Hm) as (sm & Hrm & ->).
  destruct (runs_extend _ _ _ _ _ _ Hnm Hrn Hrm) as (more & Hmore).
  do 3 eexists. split; [exact Hn|]. split; [exact Hm|]. exact Hmore.
Qed.

(** The list returned is made of the samples of the attempts, in their
    order: attempt [k] takes draw [2k] for the longitude and draw
    [2k + 1] for the latitude ([nth_sample]); the samples that the
    boundary contains or touches are kept, each rounded to six decimals
    and stored with the latitude first ([rounded_pair]). *)
Theorem returned_points_are_rounded_samples (fuel : nat) (osm : osm_lookup)
    (count : Z) (g : R) :
  (Z.to_nat (count * 20) <= fuel)%nat ->
  exists out,
    generate_malta_points random fuel osm count g = Some out /\
    gen_points out =
    map rounded_pair
      (List.filter (covers (fst (get_malta_boundary osm)))
         (map (nth_sample (fst (get_malta_boundary osm)) g)
            (seq 0 (Z.to_nat (gen_attempts out))))).
Proof.
  intros Hfuel.
  destruct (generate_returns random fuel osm count g Hfuel) as [out Hgen].
  exists out. split; [exact Hgen|].
  destruct (generate_runs _ _ _ _ _ _ Hgen) as (st & Hruns & ->).
  cbn [gen_points gen_attempts].
  rewrite (runs_samples _ count g (entry g) st Hruns); cbn [entry attempts points rng].
  - now rewrite Z.sub_0_r.
  - lia.
  - reflexivity.
Qed.

End WithRandom.

(** ** Two runs, each with its own generator *)

Section TwoGenerators.

Context {R1 R2 : Type}.
Variable random1 : R1 -> float * R1.
Variable random2 : R2 -> float * R2.

Lemma same_draws_same_sample (boundary : BaseGeometry) (g1 : R1) (g2 : R2) (k : nat) :
  nth_draw random1 (2 * k) g1 = nth_draw random2 (2 * k) g2 ->
  nth_draw random1 (2 * k + 1) g1 = nth_draw random2 (2 * k + 1) g2 ->
  nth_sample random1 boundary g1 k = nth_sample random2 boundary g2 k.
Proof.
  unfold nth_sample. destruct (bounds boundary) as [[[minx miny] maxx] maxy].
  now intros -> ->.
Qed.

(** The two loops stay in step as long as the generators return the same
    values. *)
Lemma runs_same_draws (boundary : BaseGeometry) (n : Z) (g1 : R1) (g2 : R2)
    (st1 st1' : loop_state) :
  loop_runs random1 boundary n st1 st1' ->
  forall st2 st2' : loop_state,
    loop_runs random2 boundary n st2 st2' ->
    points st2 = points st1 ->
    attempts st2 = attempts st1 ->
    0 <= attempts st1 ->
    rng st1 = after_draws random1 (2 * Z.to_nat (attempts st1)) g1 ->
    rng st2 = after_draws random2 (2 * Z.to_nat (attempts st1)) g2 ->
    (forall k, (k < 2 * Z.to_nat (attempts st1'))%nat ->
               nth_draw random1 k g1 = nth_draw random2 k g2) ->
    points st2' = points st1' /\ attempts st2' = attempts st1'.
Proof.
  induction 1 as [st1 Hg | st1 st1' Hg Hrest IH];
    intros st2 st2' Hruns2 Hp Ha H0 Hr1 Hr2 Hd.
  - assert (Hg2 : loop_guard n st2 = false)
      by (unfold loop_guard in *; now rewrite Hp, Ha).
    inversion Hruns2; subst; [tauto | congruence].
  - destruct (runs_exit _ _ _ _ _ Hrest) as (_ & Hle & _).
    rewrite loop_body_attempts in Hle.
    assert (Hg2 : loop_guard n st2 = true)
      by (unfold loop_guard in *; now rewrite Hp, Ha).
    inversion Hruns2 as [? Hg2' | ? ? Hg2' Hrest2]; subst; [congruence|].
    apply (IH _ _ Hrest2).
    + rewrite !loop_body_points, Hp, Hr1, Hr2, !sampled_point_nth.
      rewrite (same_draws_same_sample boundary g1 g2 (Z.to_nat (attempts st1)))
        by (apply Hd; lia).
      reflexivity.
    + rewrite !loop_body_attempts. lia.
    + rewrite loop_body_attempts. lia.
    + rewrite loop_body_rng, Hr1, loop_body_attempts. now apply after_draws_pass.
    + rewrite loop_body_rng, Hr2, loop_body_attempts. now apply after_draws_pass.
    + exact Hd.
Qed.

(** C8: all that the function takes from the generator are the values
    that [random.random()] returns, and a seed fixes those.  Two runs for
    the same count and the same boundary, each with a generator of its
    own, return the same points, print the same lines and make the same
    number of attempts when the second generator returns, for the draws
    that the first run takes, the values that the first one returned, as
    a generator seeded with the same value does; nothing else of the
    state of either generator matters. *)
Theorem same_draws_same_points (fuel1 fuel2 : nat) (osm : osm_lookup) (count : Z)
    (g1 : R1) (g2 : R2) :
  (Z.to_nat (count * 20) <= fuel1)%nat ->
  (Z.to_nat (count * 20) <= fuel2)%nat ->
  exists out1,
    generate_malta_points random1 fuel1 osm count g1 = Some out1 /\
    ((forall k, (k < 2 * Z.to_nat (gen_attempts out1))%nat ->
                nth_draw random1 k g1 = nth_draw random2 k g2) ->
     exists out2,
       generate_malta_points random2 fuel2 osm count g2 = Some out2 /\
       gen_points out2 = gen_points out1 /\
       gen_stdout out2 = gen_stdout out1 /\
       gen_attempts out2 = gen_attempts out1).
Proof.
  intros Hfuel1 Hfuel2.
  destruct (generate_returns random1 fuel1 osm count g1 Hfuel1) as [out1 Hgen1].
  destruct (generate_returns random2 fuel2 osm count g2 Hfuel2) as [out2 Hgen2].
  exists out1. split; [exact Hgen1|]. intros Hdraws.
  exists out2. split; [exact Hgen2|].
  destruct (generate_runs _ _ _ _ _ _ Hgen1) as (st1 & Hruns1 & ->).
  destruct (generate_runs _ _ _ _ _ _ Hgen2) as (st2 & Hruns2 & ->).
  cbn [gen_points gen_stdout gen_attempts] in *.
  assert (Hstep : points st2 = points st1 /\ attempts st2 = attempts st1).
  { apply (runs_same_draws _ _ g1 g2 _ _ Hruns1 _ _ Hruns2).
    - reflexivity.
    - reflexivity.
    - cbn. lia.
    - reflexivity.
    - reflexivity.
    - exact Hdraws. }
  destruct Hstep as [Hp Ha]. now rewrite Hp, Ha.
Qed.

End TwoGenerators.

(** ** Concrete runs *)

(** A small congruential generator, seeded with an integer, that stands
    for the generator of the [random] module in the runs below: the top
    53 bits of its 64-bit state are the value returned. *)
Definition lcg_next (x : Z) : Z :=
  (6364136223846793005 * x + 1442695040888963407) mod 2 ^ 64.

Definition lcg_random (x : Z) : float * Z :=
  let x' := lcg_next x in (of_scaled (x' / 2 ^ 11) (-53), x').

Definition lcg_seed (s : Z) : Z := s mod 2 ^ 64.

(** The numerators of the first [n] values that the generator returns
    from state [x]. *)
Fixpoint recorded (n : nat) (x : Z) : list Z :=
  match n with
  | O => []
  | S n' => lcg_next x / 2 ^ 11 :: recorded n' (lcg_next x)
  end.

(** With seed 78 the first two samples are rejected and the third is
    accepted; other seeds give other points, and so does a second run
    that goes on from where the first left the generator. *)
Lemma seeded_runs :
  let run s := generate_malta_points lcg_random 20 OsmNoFeature 1 s in
  option_map gen_attempts (run (lcg_seed 78)) = Some 3 /\
  option_map gen_points (run (lcg_seed 78)) <> option_map gen_points (run (lcg_seed 79)) /\
  match run (lcg_seed 78) with
  | Some out => option_map gen_points (run (gen_rng out)) <> Some (gen_points out)
  | None => False
  end.
Proof. vm_compute. repeat split; discriminate. Qed.

(** Two runs with generators seeded alike; and a second run that
    replays, from a tape, the six values that the first run draws, where
    what follows on the tape is not what the first generator would
    return next. *)
Lemma same_draws_same_points_example :
  (exists out1 out2,
     generate_malta_points lcg_random 20 OsmNoFeature 1 (lcg_seed 78) = Some out1 /\
     generate_malta_points lcg_random 25 OsmNoFeature 1 (lcg_seed 78) = Some out2 /\
     gen_points out2 = gen_points out1 /\
     gen_stdout out2 = gen_stdout out1 /\
     gen_attempts out2 = gen_attempts out1) /\
  (exists out1 out2,
     generate_malta_points lcg_random 20 OsmNoFeature 1 (lcg_seed 78) = Some out1 /\
     generate_malta_points tape_random 25 OsmNoFeature 1
       (recorded 6 (lcg_seed 78) ++ [0; 0]) = Some out2 /\
     gen_points out2 = gen_points out1 /\
     gen_stdout out2 = gen_stdout out1 /\
     gen_attempts out2 = gen_attempts out1).
Proof.
  split.
  - destruct (same_draws_same_points lcg_random lcg_random 20 25 OsmNoFeature 1
                (lcg_seed 78) (lcg_seed 78))
      as (out1 & Hgen1 & Hsame); [simpl; lia | simpl; lia |].
    exists out1.
    destruct Hsame as (out2 & Hgen2 & Hrest); [reflexivity|].
    exists out2. split; [exact Hgen1|]. split; [exact Hgen2 | exact Hrest].
  - destruct (same_draws_same_points lcg_random tape_random 20 25 OsmNoFeature 1
                (lcg_seed 78) (recorded 6 (lcg_seed 78) ++ [0; 0]))
      as (out1 & Hgen1 & Hsame); [simpl; lia | simpl; lia |].
    exists out1.
    destruct Hsame as (out2 & Hgen2 & Hrest).
    + pose proof Hgen1 as Hrun. vm_compute in Hrun. injection Hrun as <-.
      cbn [gen_attempts]. intros k Hk.
      do 6 (destruct k as [|k]; [vm_compute; reflexivity|]). simpl in Hk. lia.
    + exists out2. split; [exact Hgen1|]. split; [exact Hgen2 | exact Hrest].
Defined.

Lemma points_attempts_and_budget_example :
  exists out,
    generate_malta_points tape_random 20 OsmNoFeature 1 edge_draws = Some out /\
    Z.of_nat (length (gen_points out)) <= gen_attempts out /\
    Z.of_nat (length (gen_points out)) <= Z.max 0 1 /\
    0 <= gen_attempts out <= Z.max 0 (1 * 20).
Proof.
  apply (points_attempts_and_budget tape_random 20 OsmNoFeature 1 edge_draws).
  simpl. lia.
Defined.

Lemma two_draws_per_attempt_example :
  exists out,
    generate_malta_points tape_random 20 OsmNoFeature 1 edge_draws = Some out /\
    gen_rng out = after_draws tape_random (2 * Z.to_nat (gen_attempts out)) edge_draws.
Proof.
  apply (two_draws_per_attempt tape_random 20 OsmNoFeature 1 edge_draws).
  simpl. lia.
Defined.

(** The first sample is accepted; the draws that follow it on the tape
    would give a point outside the polygon, and are never taken. *)
Lemma full_boundary_gives_all_points_example :
  exists out,
    generate_malta_points tape_random 20 OsmNoFeature 1
      (edge_draws ++ [0; 9007199254740991]) = Some out /\
    Z.of_nat (length (gen_points out)) = 1 /\
    gen_attempts out = 1 /\
    gen_stdout out = snd (get_malta_boundary OsmNoFeature) ++ [generating_line 1].
Proof.
  apply (full_boundary_gives_all_points tape_random 20 OsmNoFeature 1
           (edge_draws ++ [0; 9007199254740991])).
  - lia.
  - intros k Hk. destruct k as [|k]; [vm_compute; reflexivity | lia].
  - simpl. lia.
Defined.

Lemma larger_count_extends_example :
  exists out_n out_m more,
    generate_malta_points tape_random 40 OsmNoFeature 1 edge_draws = Some out_n /\
    generate_malta_points tape_random 40 OsmNoFeature 2 edge_draws = Some out_m /\
    gen_points out_m = gen_points out_n ++ more.
Proof.
  apply (larger_count_extends tape_random 40 OsmNoFeature 1 2 edge_draws).
  - lia.
  - simpl. lia.
Defined.

(** A rejected sample, the corner of the bounding box, followed by an
    accepted one. *)
Definition corner_then_edge : list Z := [0; 9007199254740991] ++ edge_draws.

Lemma corner_then_edge_run :
  option_map (fun out => (gen_points out, gen_attempts out, gen_rng out))
    (generate_malta_points tape_random 20 OsmNoFeature 1 corner_then_edge)
  = Some ([rounded_pair edge_sample], 2, []) /\
  nth_sample tape_random (fst (get_malta_boundary OsmNoFeature)) corner_then_edge 1
  = edge_sample /\
  covers (fst (get_malta_boundary OsmNoFeature))
    (nth_sample tape_random (fst (get_malta_boundary OsmNoFeature)) corner_then_edge 0)
  = false.
Proof. vm_compute. repeat split; reflexivity. Qed.

Lemma returned_points_are_rounded_samples_example :
  exists out,
    generate_malta_points tape_random 20 OsmNoFeature 1 corner_then_edge = Some out /\
    gen_points out =
    map rounded_pair
      (List.filter (covers (fst (get_malta_boundary OsmNoFeature)))
         (map (nth_sample tape_random (fst (get_malta_boundary OsmNoFeature))
                 corner_then_edge)
            (seq 0 (Z.to_nat (gen_attempts out))))).
Proof.
  apply (returned_points_are_rounded_samples tape_random 20 OsmNoFeature 1
           corner_then_edge).
  simpl. lia.
Defined.

End SamplerFacts.

(** * More on the request helpers *)

Module ApiFacts.

Import Float64 PyNum Api ApiProofs TextProofs.

Lemma slice_to_prefix {A} (l : list A) (k : Z) :
  exists rest, l = slice_to l k ++ rest.
Proof.
  unfold slice_to. destruct (k <? 0); eexists; symmetry; apply firstn_skipn.
Qed.

(** The points that are sent are always a prefix of the list given; how
    many depends on [max_points]: all of them for [None] and for [0], the
    first [max_points] (or all, if there are fewer) for a positive value,
    and all but the last [-max_points] for a negative one. *)
Theorem selection_is_a_prefix (points : list (float * float))
    (max_points : option Z) :
  (exists rest, points = select_points points max_points ++ rest) /\
  length (select_points points max_points) =
  match max_points with
  | None => length points
  | Some k =>
      if k =? 0 then length points
      else if 0 <? k then Nat.min (Z.to_nat k) (length points)
      else Z.to_nat (Z.of_nat (length points) + k)
  end.
Proof.
  destruct max_points as [k|]; cbn [select_points truthy].
  - destruct (Z.eqb_spec k 0) as [->|Hk]; cbn [negb].
    + split; [exists []; now rewrite app_nil_r | reflexivity].
    + split; [apply slice_to_prefix|].
      unfold slice_to. destruct (Z.ltb_spec k 0), (Z.ltb_spec 0 k); try lia;
        rewrite length_firstn; lia.
  - split; [exists []; now rewrite app_nil_r | reflexivity].
Qed.

(** The text of the curl command before the body. *)
Definition curl_head : string :=
  "curl -X POST " +:+ dquote +:+ "http://127.0.0.1:5002/table/v1/driving/" +:+ dquote
    +:+ " " +:+ backslash +:+ newline
    +:+ "-H " +:+ dquote +:+ "Content-Type: application/x-www-form-urlencoded" +:+ dquote
    +:+ " " +:+ backslash +:+ newline
    +:+ "-d " +:+ dquote.

(** The curl command and the Python request carry the same body for the
    same arguments: the command is a fixed head, the body that
    [requests.post] receives, and a closing quote. *)
Theorem curl_and_request_send_the_same_body (env : environment)
    (points : list (float * float)) (max_points : option Z) (api_url : string) :
  exists body,
    In (Posted api_url body request_headers)
       (snd (make_driving_api_request env points max_points api_url)) /\
    generate_curl_command points max_points = curl_head +:+ body +:+ dquote.
Proof.
  exists (format_points_for_api (select_points points max_points)).
  split; [apply request_posts_selected|].
  unfold generate_curl_command, curl_head.
  now rewrite !string_app_assoc.
Qed.

Definition is_post (ev : event) : bool :=
  match ev with
  | Posted _ _ _ => true
  | Printed _ => false
  end.

Lemma request_posts (env : environment) (points : list (float * float))
    (max_points : option Z) (api_url : string) :
  filter (fun ev => is_post ev = true)
         (snd (make_driving_api_request env points max_points api_url))
  = [Posted api_url (format_points_for_api (select_points points max_points))
       request_headers].
Proof.
  unfold make_driving_api_request.
  destruct (post env _ _ _) as [resp|e].
  - destruct (status_code resp =? 200); [destruct (json resp) as [[]|]|]; reflexivity.
  - destruct (is_request_exception e); reflexivity.
Qed.

(** Whatever the server does, the function makes exactly one POST, to
    the address given, with the form content type and the formatted
    selection as its body. *)
Theorem exactly_one_post (env : environment) (points : list (float * float))
    (max_points : option Z) (api_url : string) :
  filter (fun ev => is_post ev = true)
         (snd (make_driving_api_request env points max_points api_url))
  = [Posted api_url (format_points_for_api (select_points points max_points))
       {[ "Content-Type" := "application/x-www-form-urlencoded" ]}].
Proof.
  unfold make_driving_api_request.
  destruct (post env _ _ _) as [resp|e].
  - destruct (status_code resp =? 200); [destruct (json resp) as [[]|]|]; reflexivity.
  - destruct (is_request_exception e); reflexivity.
Qed.



(** When a dictionary is returned for a response, the value under
    [request_duration_seconds] is the difference of the two clock
    readings, also when the decoded object had a field of that name;
    after a request exception the key is absent. *)
Theorem duration_is_measured (env : environment)
    (points : list (float * float)) (max_points : option Z) (api_url : string)
    (d : gmap string pyval) :
  fst (make_driving_api_request env points max_points api_url) = Returns d ->
  d !! "request_duration_seconds" =
  match posted env points max_points api_url with
  | PostReturns _ => Some (PyFloat (sub (monotonic_after env) (monotonic_before env)))
  | PostRaises _ => None
  end.
Proof.
  rewrite request_result.
  destruct (posted env points max_points api_url) as [resp|e].
  - destruct (status_code resp =? 200); [destruct (json resp) as [[]|]|];
      intros [= <-]; now simplify_map_eq.
  - destruct (is_request_exception e); intros [= <-]. now simplify_map_eq.
Qed.

(** The server's own [request_duration_seconds] is replaced. *)
Definition env_with_field : environment :=
  mkEnv (fun _ _ _ =>
           PostReturns (mkResponse 200 "{}"
             (Some (PyDict {[ "request_duration_seconds" := PyStr "n/a" ]}))))
        clock_before clock_after.

Lemma duration_is_measured_example :
  fst (make_driving_api_request env_with_field two_points None default_api_url)
    = Returns {[ "request_duration_seconds" := PyFloat (sub clock_after clock_before) ]}
  /\ ({[ "request_duration_seconds" := PyFloat (sub clock_after clock_before) ]}
        : gmap string pyval) !! "request_duration_seconds"
     = Some (PyFloat (sub clock_after clock_before)).
Proof.
  assert (Hret : fst (make_driving_api_request env_with_field two_points None
                        default_api_url)
                 = Returns {[ "request_duration_seconds" :=
                                PyFloat (sub clock_after clock_before) ]}).
  { rewrite request_result. cbn. now rewrite insert_singleton_eq. }
  split; [exact Hret|].
  exact (duration_is_measured env_with_field two_points None default_api_url _ Hret).
Defined.

End ApiFacts.

(** * Files, printing and the script

    The rest of [monaco.py]: the three functions that write files,
    [print_points], and the block under [if __name__ == "__main__"].
    Their effects are the lines printed, the files written and the
    requests made; they are kept in a [world] that is threaded through
    the calls, together with the way a call ends. *)

Module Pipeline.

Import Float64 PyNum Shapely Boundary Sampler Api.

(** What a file holds once it is written. *)
Inductive file_content :=
| JsonDocument (doc : pyval)     (* the text of [json.dump(doc, f, indent=2)] *)
| PlainText (s : string).        (* the text given to [f.write] *)

Record world := mkWorld {
  stdout : list string;                  (* one entry for each [print] *)
  files : gmap string file_content;
  requests : list event                  (* the POSTs made, oldest first *)
}.

(** How a call ends: it returns, it raises an exception, or it leaves
    the interpreter through [exit()]. *)
Inductive result (A : Type) :=
| Done (a : A)
| Raised (e : exception)
| Exited.

Arguments Done {A} a.
Arguments Raised {A} e.
Arguments Exited {A}.

Definition io (A : Type) : Type := world -> result A * world.

Definition ret {A} (a : A) : io A := fun w => (Done a, w).

Definition bind {A B} (c : io A) (k : A -> io B) : io B :=
  fun w =>
    match c w with
    | (Done a, w') => k a w'
    | (Raised e, w') => (Raised e, w')
    | (Exited, w') => (Exited, w')
    end.

Notation "x <- c ;; k" := (bind c (fun x => k))
  (at level 100, c at next level, right associativity).
Notation "c ;; k" := (bind c (fun _ => k))
  (at level 100, right associativity).

Definition raise {A} (e : exception) : io A := fun w => (Raised e, w).

(** [exit()] raises [SystemExit], which is not an [Exception]. *)
Definition exit {A} : io A := fun w => (Exited, w).

(** [try: c except Exception as e: handler e] *)
Definition try_except {A} (c : io A) (handler : exception -> io A) : io A :=
  fun w =>
    match c w with
    | (Raised e, w') => handler e w'
    | other => other
    end.

Definition print (line : string) : io unit :=
  fun w => (Done tt, {| stdout := stdout w ++ [line];
                        files := files w;
                        requests := requests w |}).

Fixpoint print_all (lines : list string) : io unit :=
  match lines with
  | [] => ret tt
  | line :: rest => print line ;; print_all rest
  end.

(** The one thing the functions need to know about the machine: whether
    [open(filename, 'w')] succeeds, and the message of the [OSError] it
    raises when it does not. *)
Record machine := mkMachine {
  open_error : string -> option string
}.

(** [with open(filename, 'w') as f:] followed by one write of [content]. *)
Definition write_file (m : machine) (filename : string) (content : file_content)
    : io unit :=
  fun w =>
    match open_error m filename with
    | Some msg => (Raised (mkExc OtherException msg), w)
    | None => (Done tt, {| stdout := stdout w;
                           files := <[filename := content]> (files w);
                           requests := requests w |})
    end.

(** ** [save_points_to_file] *)

(** The list comprehension over [enumerate(points)]. *)
Definition points_data (points : list (float * float)) : list pyval :=
  imap (fun i '(lat, lon) =>
          PyDict {[ "id" := PyInt (Z.of_nat i + 1);
                    "latitude" := PyFloat lat;
                    "longitude" := PyFloat lon;
                    "coordinates" := PyStr (format_f 6 lat +:+ ", " +:+ format_f 6 lon) ]})
       points.

Definition save_points_to_file (m : machine) (points : list (float * float))
    (filename : string) : io unit :=
  write_file m filename (JsonDocument (PyList (points_data points))) ;;
  print ("Saved " +:+ str_of_int (Z.of_nat (length points)) +:+ " points to " +:+ filename).

(** ** [save_api_formatted_points] *)

Definition save_api_formatted_points (m : machine) (points : list (float * float))
    (filename : string) : io unit :=
  let api_format := format_points_for_api points in
  write_file m filename (PlainText api_format) ;;
  print ("Saved " +:+ str_of_int (Z.of_nat (length points))
           +:+ " points in API format to " +:+ filename) ;;
  print "Format: longitude,latitude;longitude,latitude...".

(** ** [print_points] *)

(** [c * n] for a one-character string. *)
Fixpoint repeated (c : ascii) (n : nat) : string :=
  match n with
  | O => EmptyString
  | S n' => String c (repeated c n')
  end.

(** The format [{n:3d}]: right-aligned in a field of three. *)
Definition format_3d (n : Z) : string :=
  let s := str_of_int n in
  repeated " " (3 - String.length s) +:+ s.

Definition print_points_lines (points : list (float * float)) (num_to_show : Z)
    : list string :=
  [ newline +:+ "Generated " +:+ str_of_int (Z.of_nat (length points))
      +:+ " random points in Malta:";
    repeated "-" 50 ]
  ++ imap (fun i '(lat, lon) =>
             "Point " +:+ format_3d (Z.of_nat i + 1) +:+ ": "
               +:+ format_f 6 lat +:+ ", " +:+ format_f 6 lon)
          (slice_to points num_to_show)
  ++ (if num_to_show <? Z.of_nat (length points)
      then ["... and " +:+ str_of_int (Z.of_nat (length points) - num_to_show)
              +:+ " more points"]
      else []).

Definition print_points (points : list (float * float)) (num_to_show : Z) : io unit :=
  print_all (print_points_lines points num_to_show).

(** ** [save_api_response_to_json] *)

Definition save_api_response_to_json (m : machine) (response_data : gmap string pyval)
    (filename : string) : io unit :=
  try_except
    (write_file m filename (JsonDocument (PyDict response_data)) ;;
     print (newline +:+ "API response successfully saved to " +:+ filename))
    (fun e =>
       print (newline +:+ "Error: Could not save API response to file: " +:+ exc_str e)).

(** ** The script *)

(** [make_driving_api_request], with its prints and its POST recorded in
    the world. *)
Definition record (ev : event) (w : world) : world :=
  match ev with
  | Printed line => {| stdout := stdout w ++ [line];
                       files := files w;
                       requests := requests w |}
  | Posted _ _ _ => {| stdout := stdout w;
                       files := files w;
                       requests := requests w ++ [ev] |}
  end.

Definition call_make_driving_api_request (env : environment)
    (points : list (float * float)) (max_points : option Z) (api_url : string)
    : io (gmap string pyval) :=
  fun w =>
    let '(o, trace) := make_driving_api_request env points max_points api_url in
    let w' := fold_left (fun w ev => record ev w) trace w in
    match o with
    | Returns d => (Done d, w')
    | Raises e => (Raised e, w')
    end.

Definition rule : string := repeated "=" 60.

(** Printing [request_duration] with [.4f]: the line is skipped for
    [None]; an int or a bool is converted to a float; a string, a list
    or a dict cannot be formatted. *)
Definition print_request_time (request_duration : option pyval) : io unit :=
  let line x := "API request time: " +:+ format_f 4 x +:+ " seconds" in
  match request_duration with
  | None | Some PyNone => ret tt
  | Some (PyFloat x) => print (line x)
  | Some (PyInt n) => print (line (of_scaled n 0))
  | Some (PyBool b) => print (line (of_scaled (if b then 1 else 0) 0))
  | Some (PyStr _) =>
      raise (mkExc OtherException "Unknown format code 'f' for object of type 'str'")
  | Some (PyList _) =>
      raise (mkExc TypeError "unsupported format string passed to list.__format__")
  | Some (PyDict _) =>
      raise (mkExc TypeError "unsupported format string passed to dict.__format__")
  end.

Definition check : string :=
  String (ascii_of_nat 226) (String (ascii_of_nat 156) (String (ascii_of_nat 147) EmptyString)).

(** The statements of the script after the points are generated. *)
Definition after_generation (m : machine) (env : environment)
    (malta_points : list (float * float)) : io unit :=
  match malta_points with
  | [] => print "No points were generated. Exiting." ;; exit
  | _ =>
      print_points malta_points 10 ;;
      save_points_to_file m malta_points "malta_points.json" ;;
      save_api_formatted_points m malta_points "malta_points_api_format.txt" ;;
      print (newline +:+ rule) ;;
      print "API FORMAT EXAMPLE (first 5 points):" ;;
      print rule ;;
      print (format_points_for_api (slice_to malta_points 5)) ;;
      print (newline +:+ rule) ;;
      print "SAMPLE CURL COMMAND (first 5 points):" ;;
      print rule ;;
      print (generate_curl_command (slice_to malta_points 5) None) ;;
      print (newline +:+ rule) ;;
      print ("MAKING API REQUEST WITH PYTHON REQUESTS (ALL "
               +:+ str_of_int (Z.of_nat (length malta_points)) +:+ " points):") ;;
      print rule ;;
      api_response <- call_make_driving_api_request env malta_points None
                        default_api_url ;;
      save_api_response_to_json m api_response "api_response.json" ;;
      print (newline +:+ rule) ;;
      print "SUMMARY:" ;;
      print rule ;;
      print ("Total points generated: "
               +:+ str_of_int (Z.of_nat (length malta_points))) ;;
      print_request_time (api_response !! "request_duration_seconds") ;;
      print (check +:+ " JSON format saved to: malta_points.json") ;;
      print (check +:+ " API format saved to: malta_points_api_format.txt") ;;
      print (check +:+ " Full API response saved to: api_response.json") ;;
      print (check +:+ " All points are within Malta's actual boundaries") ;;
      print (check +:+ " All coordinates have 6 decimal precision") ;;
      print (check +:+ " API request executed with Python requests!") ;;
      print (check +:+ " Ready for driving API calls!")
  end.

Definition report_error (e : exception) : io unit :=
  print ("An error occurred: " +:+ exc_str e) ;;
  print "Please check your internet connection if the script is trying to fetch OSM data.".

Section WithRandom.

Context {R : Type}.
Variable random : R -> float * R.

(** The block under [if __name__ == "__main__"], for the parsed
    [--num_points]; [None] when [fuel] is too small for the sampling
    loop.  None of the modelled calls raises [ImportError], so only the
    [except Exception] clause is written. *)
Definition main (m : machine) (env : environment) (osm : osm_lookup) (fuel : nat)
    (number_of_points : Z) (g : R) (w : world) : option (result unit * world) :=
  match generate_malta_points random fuel osm number_of_points g with
  | None => None
  | Some out =>
      Some (try_except
              (print ("Starting Malta point generation for "
                        +:+ str_of_int number_of_points +:+ " points...") ;;
               print_all (gen_stdout out) ;;
               after_generation m env (gen_points out))
              report_error w)
  end.

End WithRandom.

End Pipeline.

(** * Properties of the files, the printing and the script *)

Module PipelineFacts.

Import Float64 PyNum Shapely Boundary Sampler SamplerProofs Api ApiProofs Pipeline.

Lemma bind_done {A B} (c : io A) (k : A -> io B) (w w' : world) (a : A) :
  c w = (Done a, w') -> bind c k w = k a w'.
Proof. unfold bind. now intros ->. Qed.

Lemma print_all_run (lines : list string) (w : world) :
  print_all lines w
  = (Done tt, {| stdout := stdout w ++ lines; files := files w; requests := requests w |}).
Proof.
  revert w. induction lines as [|line rest IH]; intros w.
  - cbn. rewrite app_nil_r. now destruct w.
  - cbn [print_all]. unfold bind, print at 1. rewrite IH. cbn.
    now rewrite <- app_assoc.
Qed.

Lemma record_trace (trace : list event) (w : world) :
  files (fold_left (fun w ev => record ev w) trace w) = files w /\
  requests (fold_left (fun w ev => record ev w) trace w)
  = requests w ++ filter (fun ev => ApiFacts.is_post ev = true) trace.
Proof.
  revert w. induction trace as [|ev rest IH]; intros w; cbn [fold_left].
  - split; [reflexivity | now rewrite app_nil_r].
  - destruct (IH (record ev w)) as [Hf Hr]. rewrite Hf, Hr.
    destruct ev; cbn; [tauto|]. now rewrite <- app_assoc.
Qed.

(** ** Actions that leave the requests and the other files alone *)

(** [w'] differs from [w] at most in what is printed and in the file
    [api_response.json]. *)
Definition same_outside (w w' : world) : Prop :=
  requests w' = requests w /\
  forall f, f <> "api_response.json" -> files w' !! f = files w !! f.

Definition frame {A} (c : io A) : Prop := forall w, same_outside w (snd (c w)).


Lemma same_outside_refl (w : world) : same_outside w w.
Proof. split; [reflexivity | intros; reflexivity]. Qed.

Lemma same_outside_trans (a b c : world) :
  same_outside a b -> same_outside b c -> same_outside a c.
Proof.
  intros [Hr1 Hf1] [Hr2 Hf2]. split; [congruence|].
  intros f Hf. now rewrite Hf2, Hf1.
Qed.

Lemma frame_print (line : string) : frame (print line).
Proof. intros w. split; [reflexivity | intros; reflexivity]. Qed.

Lemma frame_ret {A} (a : A) : frame (ret a).
Proof. intros w. apply same_outside_refl. Qed.

Lemma frame_raise {A} (e : exception) : frame (raise (A:=A) e).
Proof. intros w. apply same_outside_refl. Qed.

Lemma frame_bind {A B} (c : io A) (k : A -> io B) :
  frame c -> (forall a, frame (k a)) -> frame (bind c k).
Proof.
  intros Hc Hk w. unfold bind. specialize (Hc w).
  destruct (c w) as [[a|e|] w']; cbn [snd] in *; try exact Hc.
  eapply same_outside_trans; [exact Hc | apply Hk].
Qed.

Lemma frame_try_except {A} (c : io A) (handler : exception -> io A) :
  frame c -> (forall e, frame (handler e)) -> frame (try_except c handler).
Proof.
  intros Hc Hh w. unfold try_except. specialize (Hc w).
  destruct (c w) as [[a|e|] w']; cbn [snd] in *; try exact Hc.
  eapply same_outside_trans; [exact Hc | apply Hh].
Qed.

Lemma frame_write_response (m : machine) (content : file_content) :
  frame (write_file m "api_response.json" content).
Proof.
  intros w. unfold write_file. destruct (open_error m _); cbn.
  - apply same_outside_refl.
  - split; [reflexivity|]. intros f Hf. cbn. now rewrite lookup_insert_ne.
Qed.

Lemma frame_save_response (m : machine) (d : gmap string pyval) :
  frame (save_api_response_to_json m d "api_response.json").
Proof.
  apply frame_try_except.
  - apply frame_bind; [apply frame_write_response | intros; apply frame_print].
  - intros e. apply frame_print.
Qed.

Lemma frame_request_time (v : option pyval) : frame (print_request_time v).
Proof.
  destruct v as [[]|]; cbn [print_request_time];
    first [apply frame_print | apply frame_ret | apply frame_raise].
Qed.

Lemma frame_report_error (e : exception) : frame (report_error e).
Proof. apply frame_bind; [apply frame_print | intros; apply frame_print]. Qed.








(** ** The steps of the script *)

Lemma bind_print {B} (line : string) (k : unit -> io B) (w : world) :
  bind (print line) k w
  = k tt {| stdout := stdout w ++ [line]; files := files w; requests := requests w |}.
Proof. reflexivity. Qed.

Lemma save_points_to_file_run (m : machine) (points : list (float * float))
    (filename : string) (w : world) :
  save_points_to_file m points filename w =
  match open_error m filename with
  | Some msg => (Raised (mkExc OtherException msg), w)
  | None =>
      (Done tt,
       {| stdout := stdout w ++
            ["Saved " +:+ str_of_int (Z.of_nat (length points)) +:+ " points to "
               +:+ filename];
          files := <[filename := JsonDocument (PyList (points_data points))]> (files w);
          requests := requests w |})
  end.
Proof.
  unfold save_points_to_file, bind, write_file.
  destruct (open_error m filename); reflexivity.
Qed.

Lemma save_api_formatted_points_run (m : machine) (points : list (float * float))
    (filename : string) (w : world) :
  save_api_formatted_points m points filename w =
  match open_error m filename with
  | Some msg => (Raised (mkExc OtherException msg), w)
  | None =>
      (Done tt,
       {| stdout := stdout w ++
            ["Saved " +:+ str_of_int (Z.of_nat (length points))
               +:+ " points in API format to " +:+ filename;
             "Format: longitude,latitude;longitude,latitude..."];
          files := <[filename := PlainText (format_points_for_api points)]> (files w);
          requests := requests w |})
  end.
Proof.
  unfold save_api_formatted_points, bind, write_file, print.
  destruct (open_error m filename); [reflexivity|].
  cbn [stdout files requests]. now rewrite <- app_assoc.
Qed.

(** The statements after the request. *)
Definition summary_steps (m : machine) (malta_points : list (float * float))
    (api_response : gmap string pyval) : io unit :=
  save_api_response_to_json m api_response "api_response.json" ;;
  print (newline +:+ rule) ;;
  print "SUMMARY:" ;;
  print rule ;;
  print ("Total points generated: "
           +:+ str_of_int (Z.of_nat (length malta_points))) ;;
  print_request_time (api_response !! "request_duration_seconds") ;;
  print (check +:+ " JSON format saved to: malta_points.json") ;;
  print (check +:+ " API format saved to: malta_points_api_format.txt") ;;
  print (check +:+ " Full API response saved to: api_response.json") ;;
  print (check +:+ " All points are within Malta's actual boundaries") ;;
  print (check +:+ " All coordinates have 6 decimal precision") ;;
  print (check +:+ " API request executed with Python requests!") ;;
  print (check +:+ " Ready for driving API calls!").

Ltac frame_steps :=
  repeat match goal with
  | |- frame (bind _ _) => apply frame_bind; [|intros ?]
  | |- frame (print _) => apply frame_print
  | |- frame (save_api_response_to_json _ _ _) => apply frame_save_response
  | |- frame (print_request_time _) => apply frame_request_time
  end.

Lemma frame_summary_steps (m : machine) (malta_points : list (float * float))
    (api_response : gmap string pyval) :
  frame (summary_steps m malta_points api_response).
Proof. unfold summary_steps. frame_steps. Qed.

(** The script from the request on, for a list that is not empty and two
    files that could be written. *)
Definition request_and_summary (m : machine) (env : environment)
    (malta_points : list (float * float)) : io unit :=
  api_response <- call_make_driving_api_request env malta_points None default_api_url ;;
  summary_steps m malta_points api_response.

Lemma request_and_summary_run (m : machine) (env : environment)
    (malta_points : list (float * float)) (w : world) :
  request_and_summary m env malta_points w =
  let '(o, trace) :=
    make_driving_api_request env malta_points None default_api_url in
  let w1 := fold_left (fun w ev => record ev w) trace w in
  match o with
  | Returns d => summary_steps m malta_points d w1
  | Raises e => (Raised e, w1)
  end.
Proof.
  unfold request_and_summary, bind, call_make_driving_api_request.
  destruct (make_driving_api_request _ _ _ _) as [[d|e] trace]; reflexivity.
Qed.

Lemma request_and_summary_effect (m : machine) (env : environment)
    (malta_points : list (float * float)) (w : world) :
  let w' := snd (try_except (request_and_summary m env malta_points) report_error w) in
  requests w' = requests w ++
    [Posted default_api_url (format_points_for_api malta_points) request_headers] /\
  forall f, f <> "api_response.json" -> files w' !! f = files w !! f.
Proof.
  cbv zeta. unfold try_except. rewrite request_and_summary_run.
  pose proof (ApiFacts.request_posts env malta_points None default_api_url) as Hposts.
  destruct (make_driving_api_request env malta_points None default_api_url)
    as [o trace]. cbn [snd] in Hposts.
  destruct (record_trace trace w) as [Hfiles Hreqs]. rewrite Hposts in Hreqs.
  cbv zeta. set (w1 := fold_left _ trace w) in *.
  assert (Hgoal : forall w2, same_outside w1 w2 ->
            requests w2 = requests w ++
              [Posted default_api_url (format_points_for_api malta_points)
                 request_headers] /\
            forall f, f <> "api_response.json" -> files w2 !! f = files w !! f).
  { intros w2 [Hr Hf]. split; [rewrite Hr; exact Hreqs|].
    intros f Hne. now rewrite Hf, Hfiles. }
  destruct o as [d|e].
  - pose proof (frame_summary_steps m malta_points d w1) as Hframe.
    destruct (summary_steps m malta_points d w1) as [[[]|e|] w2];
      cbn [snd] in *; apply Hgoal; exact Hframe.
  - apply Hgoal. apply frame_report_error.
Qed.

Lemma after_generation_run (m : machine) (env : environment)
    (malta_points : list (float * float)) (w : world) :
  malta_points <> [] ->
  open_error m "malta_points.json" = None ->
  open_error m "malta_points_api_format.txt" = None ->
  exists printed,
    after_generation m env malta_points w
    = request_and_summary m env malta_points
        {| stdout := printed;
           files :=
             <["malta_points_api_format.txt" :=
                 PlainText (format_points_for_api malta_points)]>
               (<["malta_points.json" :=
                    JsonDocument (PyList (points_data malta_points))]> (files w));
           requests := requests w |}.
Proof.
  intros Hne Hjson Htxt. destruct malta_points as [|p rest]; [congruence|].
  eexists. unfold after_generation, print_points.
  rewrite (bind_done _ _ _ _ _ (print_all_run _ _)). cbv beta.
  erewrite bind_done by (rewrite save_points_to_file_run, Hjson; reflexivity).
  cbv beta. cbn [stdout files requests].
  erewrite bind_done by (rewrite save_api_formatted_points_run, Htxt; reflexivity).
  cbv beta. cbn [stdout files requests].
  do 11 (rewrite bind_print; cbv beta; cbn [stdout files requests]).
  unfold request_and_summary, summary_steps. reflexivity.
Qed.






(** ** The two pure parts: the JSON document and the lines of
    [print_points] *)

Lemma points_data_lookup (points : list (float * float)) (i : nat)
    (lat lon : float) :
  points !! i = Some (lat, lon) ->
  points_data points !! i =
  Some (PyDict {[ "id" := PyInt (Z.of_nat i + 1);
                  "latitude" := PyFloat lat;
                  "longitude" := PyFloat lon;
                  "coordinates" := PyStr (format_f 6 lat +:+ ", " +:+ format_f 6 lon) ]}).
Proof.
  intros Hi. unfold points_data. rewrite list_lookup_imap, Hi. reflexivity.
Qed.

(** [save_points_to_file] either raises the error of [open] and leaves
    everything as it was, not even printing, or writes one file and
    nothing else: a JSON array with one object per point, in order, with
    ids counting from 1, the coordinates as the floats given, and the
    text of the pair with the latitude first. *)
Theorem saved_points_document (m : machine) (points : list (float * float))
    (filename : string) (w : world) :
  match open_error m filename with
  | Some msg =>
      save_points_to_file m points filename w = (Raised (mkExc OtherException msg), w)
  | None =>
      exists docs w',
        save_points_to_file m points filename w = (Done tt, w') /\
        requests w' = requests w /\
        (forall f, f <> filename -> files w' !! f = files w !! f) /\
        files w' !! filename = Some (JsonDocument (PyList docs)) /\
        length docs = length points /\
        forall i lat lon,
          points !! i = Some (lat, lon) ->
          exists d,
            docs !! i = Some (PyDict d) /\
            d !! "id" = Some (PyInt (Z.of_nat i + 1)) /\
            d !! "latitude" = Some (PyFloat lat) /\
            d !! "longitude" = Some (PyFloat lon) /\
            d !! "coordinates"
              = Some (PyStr (format_f 6 lat +:+ ", " +:+ format_f 6 lon))
  end.
Proof.
  rewrite save_points_to_file_run.
  destruct (open_error m filename) as [msg|]; [reflexivity|].
  eexists (points_data points), _. split; [reflexivity|]. cbn [requests files].
  split; [reflexivity|]. split; [intros f Hf; now rewrite lookup_insert_ne|].
  split; [apply lookup_insert_eq|]. split; [apply length_imap|].
  intros i lat lon Hi. eexists. split; [exact (points_data_lookup points i lat lon Hi)|].
  repeat split; now simplify_map_eq.
Qed.

Definition more_line (hidden : Z) : string :=
  "... and " +:+ str_of_int hidden +:+ " more points".

(** For a [num_to_show] that is not negative, [print_points] prints two
    header lines, one line for each of the first [num_to_show] points
    (all of them if there are fewer), and, only when points are left
    over, one line that counts them: shown and counted add up to the
    number of points. *)
Theorem print_points_shows_and_counts (points : list (float * float))
    (num_to_show : Z) :
  0 <= num_to_show ->
  exists header shown,
    print_points_lines points num_to_show
    = header ++ shown ++
      (if num_to_show <? Z.of_nat (length points)
       then [more_line (Z.of_nat (length points) - num_to_show)] else []) /\
    length header = 2%nat /\
    length shown = Nat.min (Z.to_nat num_to_show) (length points) /\
    Z.of_nat (length shown)
      + (if num_to_show <? Z.of_nat (length points)
         then Z.of_nat (length points) - num_to_show else 0)
    = Z.of_nat (length points).
Proof.
  intros Hn. unfold print_points_lines.
  eexists [_; _], _. split; [reflexivity|]. split; [reflexivity|].
  rewrite length_imap. unfold slice_to.
  destruct (Z.ltb_spec num_to_show 0); [lia|]. rewrite length_firstn.
  split; [reflexivity|].
  destruct (Z.ltb_spec num_to_show (Z.of_nat (length points))); lia.
Qed.

Section WithRandom.

Context {R : Type}.
Variable random : R -> float * R.

Definition starting_line (number_of_points : Z) : string :=
  "Starting Malta point generation for " +:+ str_of_int number_of_points +:+ " points...".

(** The script up to the point where the list is examined. *)
Lemma main_unfold (m : machine) (env : environment) (osm : osm_lookup) (fuel : nat)
    (n : Z) (g : R) (w : world) (out : generated) :
  generate_malta_points random fuel osm n g = Some out ->
  main random m env osm fuel n g w
  = Some (try_except (after_generation m env (gen_points out)) report_error
            {| stdout := stdout w ++ starting_line n :: gen_stdout out;
               files := files w;
               requests := requests w |}).
Proof.
  intros Hgen. unfold main. rewrite Hgen. f_equal.
  unfold try_except, bind, print at 1. cbn [stdout files requests].
  rewrite print_all_run. cbn [stdout files requests].
  now rewrite <- app_assoc.
Qed.

Lemma main_without_points (m : machine) (env : environment) (osm : osm_lookup)
    (fuel : nat) (n : Z) (g : R) (w : world) (out : generated) :
  generate_malta_points random fuel osm n g = Some out ->
  gen_points out = [] ->
  main random m env osm fuel n g w
  = Some (Exited,
          {| stdout := stdout w ++ starting_line n :: gen_stdout out
                         ++ ["No points were generated. Exiting."];
             files := files w;
             requests := requests w |}).
Proof.
  intros Hgen Hnone. rewrite (main_unfold _ _ _ _ _ _ _ _ Hgen), Hnone.
  cbn. do 3 f_equal. now rewrite <- app_assoc.
Qed.

(** When the count is zero or negative, or the boundary rejects the
    sample of each of the [20 * n] attempts that the budget allows, the
    script prints that no points were generated and leaves through
    [exit()]: no file is written and no request is made. *)
Theorem nothing_generated_nothing_done (m : machine) (env : environment)
    (osm : osm_lookup) (fuel : nat) (n : Z) (g : R) (w : world) :
  n <= 0 \/
  (forall k, Z.of_nat k < n * 20 ->
             covers (fst (get_malta_boundary osm))
               (SamplerFacts.nth_sample random (fst (get_malta_boundary osm)) g k)
             = false) ->
  (Z.to_nat (n * 20) <= fuel)%nat ->
  exists out,
    generate_malta_points random fuel osm n g = Some out /\
    gen_points out = [] /\
    main random m env osm fuel n g w
    = Some (Exited,
            {| stdout := stdout w ++ starting_line n :: gen_stdout out
                           ++ ["No points were generated. Exiting."];
               files := files w;
               requests := requests w |}).
Proof.
  intros Hcase Hfuel.
  destruct (generate_returns random fuel osm n g Hfuel) as [out Hgen].
  exists out. split; [exact Hgen|].
  assert (Hnone : gen_points out = []).
  { destruct (generate_runs _ _ _ _ _ _ Hgen) as (st & Hruns & ->). cbn [gen_points].
    destruct Hcase as [Hn | Hrej].
    - destruct (SamplerFacts.runs_counts _ _ _ _ _ Hruns) as (_ & Hlen & _);
        cbn; try lia.
      destruct (points st); [reflexivity | cbn in Hlen; lia].
    - rewrite (SamplerFacts.runs_rejecting_samples _ _ n g (entry g) st Hrej Hruns);
        [reflexivity | cbn; lia | reflexivity]. }
  split; [exact Hnone | now apply main_without_points].
Qed.

(** The lines printed before the first file is written. *)
Definition opening_lines (n : Z) (out : generated (R:=R)) : list string :=
  starting_line n :: gen_stdout out ++ print_points_lines (gen_points out) 10.

Lemma main_stops_at_points_file (m : machine) (env : environment)
    (osm : osm_lookup) (fuel : nat) (n : Z) (g : R) (w : world)
    (out : generated) (msg : string) :
  generate_malta_points random fuel osm n g = Some out ->
  gen_points out <> [] ->
  open_error m "malta_points.json" = Some msg ->
  main random m env osm fuel n g w
  = Some (Done tt,
          {| stdout := stdout w ++ opening_lines n out
                         ++ ["An error occurred: " +:+ msg;
                             "Please check your internet connection if the script is trying to fetch OSM data."];
             files := files w;
             requests := requests w |}).
Proof.
  intros Hgen Hsome Hopen. rewrite (main_unfold _ _ _ _ _ _ _ _ Hgen).
  destruct (gen_points out) as [|p rest] eqn:Hpts; [congruence|].
  unfold opening_lines. rewrite Hpts.
  unfold try_except, after_generation, print_points.
  rewrite (bind_done _ _ _ _ _ (print_all_run _ _)).
  unfold save_points_to_file, bind at 1, bind at 1, write_file at 1.
  rewrite Hopen. unfold report_error, bind, print.
  cbn [exc_str stdout files requests].
  do 3 f_equal. rewrite <- ?app_assoc. cbn [app]. now rewrite <- ?app_assoc.
Qed.

Lemma main_sends_what_it_saves (m : machine) (env : environment)
    (osm : osm_lookup) (fuel : nat) (n : Z) (g : R) (w : world) (out : generated) :
  generate_malta_points random fuel osm n g = Some out ->
  gen_points out <> [] ->
  open_error m "malta_points.json" = None ->
  open_error m "malta_points_api_format.txt" = None ->
  exists res w',
    main random m env osm fuel n g w = Some (res, w') /\
    (forall e, res <> Raised e) /\
    requests w' = requests w ++
      [Posted default_api_url (format_points_for_api (gen_points out))
         request_headers] /\
    files w' !! "malta_points_api_format.txt"
      = Some (PlainText (format_points_for_api (gen_points out))) /\
    files w' !! "malta_points.json"
      = Some (JsonDocument (PyList (points_data (gen_points out)))).
Proof.
  intros Hgen Hne Hjson Htxt. rewrite (main_unfold _ _ _ _ _ _ _ _ Hgen).
  set (w0 := {| stdout := _; files := files w; requests := requests w |}).
  destruct (after_generation_run m env (gen_points out) w0 Hne Hjson Htxt)
    as [printed Hrun].
  set (w1 := {| stdout := printed; files := _; requests := _ |}) in Hrun.
  destruct (request_and_summary_effect m env (gen_points out) w1) as [Hreq Hfiles].
  assert (Hsame : try_except (after_generation m env (gen_points out)) report_error w0
                  = try_except (request_and_summary m env (gen_points out))
                      report_error w1)
    by (unfold try_except; now rewrite Hrun).
  rewrite Hsame.
  destruct (try_except _ report_error w1) as [res w'] eqn:Hres. cbn [snd] in *.
  exists res, w'. split; [reflexivity|]. split.
  - intros e ->. unfold try_except in Hres.
    destruct (request_and_summary _ _ _ w1) as [[[]|e'|] w2]; try discriminate.
  - split; [exact Hreq|]. rewrite !Hfiles by discriminate. subst w1. cbn [files].
    split; [apply lookup_insert_eq|].
    rewrite lookup_insert_ne by discriminate. apply lookup_insert_eq.
Qed.


(** When points were generated but [malta_points.json] cannot be
    opened, the script stops there: it reports the error, writes no file
    and makes no request, and it ends without an exception. *)
Theorem unwritable_points_file_stops_the_script (m : machine) (env : environment)
    (osm : osm_lookup) (fuel : nat) (n : Z) (g : R) (w : world) (msg : string) :
  (Z.to_nat (n * 20) <= fuel)%nat ->
  open_error m "malta_points.json" = Some msg ->
  exists out,
    generate_malta_points random fuel osm n g = Some out /\
    (gen_points out <> [] ->
     main random m env osm fuel n g w
     = Some (Done tt,
             {| stdout := stdout w ++ opening_lines n out
                            ++ ["An error occurred: " +:+ msg;
                                "Please check your internet connection if the script is trying to fetch OSM data."];
                files := files w;
                requests := requests w |})).
Proof.
  intros Hfuel Hopen.
  destruct (generate_returns random fuel osm n g Hfuel) as [out Hgen].
  exists out. split; [exact Hgen|]. intros Hne.
  now apply main_stops_at_points_file.
Qed.

(** When points were generated and the two point files can be written,
    the script makes exactly one request, whose body is the format of
    all generated points, and [malta_points_api_format.txt] holds that
    same text; [malta_points.json] holds the document of all points.
    This does not depend on how the request ends. *)
Theorem script_sends_what_it_saves (m : machine) (env : environment)
    (osm : osm_lookup) (fuel : nat) (n : Z) (g : R) (w : world) :
  (Z.to_nat (n * 20) <= fuel)%nat ->
  open_error m "malta_points.json" = None ->
  open_error m "malta_points_api_format.txt" = None ->
  exists out,
    generate_malta_points random fuel osm n g = Some out /\
    (gen_points out <> [] ->
     exists res w',
       main random m env osm fuel n g w = Some (res, w') /\
       requests w' = requests w ++
         [Posted default_api_url (format_points_for_api (gen_points out))
            request_headers] /\
       files w' !! "malta_points_api_format.txt"
         = Some (PlainText (format_points_for_api (gen_points out))) /\
       files w' !! "malta_points.json"
         = Some (JsonDocument (PyList (points_data (gen_points out))))).
Proof.
  intros Hfuel Hjson Htxt.
  destruct (generate_returns random fuel osm n g Hfuel) as [out Hgen].
  exists out. split; [exact Hgen|]. intros Hne.
  destruct (main_sends_what_it_saves m env osm fuel n g w out Hgen Hne Hjson Htxt)
    as (res & w' & Hmain & _ & Hrest).
  exists res, w'. split; [exact Hmain | exact Hrest].
Qed.

End WithRandom.

(** ** Concrete runs of the script *)

Definition machine_ok : machine := mkMachine (fun _ => None).

Definition machine_locked : machine :=
  mkMachine (fun f => if String.eqb f "malta_points.json"
                      then Some "[Errno 13] Permission denied: 'malta_points.json'"
                      else None).

Definition empty_world : world := mkWorld [] ∅ [].

Lemma edge_run_has_a_point (out : generated) :
  generate_malta_points tape_random 20 OsmNoFeature 1 edge_draws = Some out ->
  gen_points out <> [].
Proof. vm_compute. intros [= <-]. discriminate. Qed.

(** One point is asked for and each of the twenty samples is the corner
    of the bounding box that the fallback polygon leaves out. *)
Lemma nothing_generated_nothing_done_example :
  exists out,
    generate_malta_points tape_random 20 OsmNoFeature 1 corner_draws = Some out /\
    gen_points out = [] /\
    main tape_random machine_ok env_ok OsmNoFeature 20 1 corner_draws empty_world
    = Some (Exited,
            {| stdout := stdout empty_world ++ starting_line 1 :: gen_stdout out
                           ++ ["No points were generated. Exiting."];
               files := files empty_world;
               requests := requests empty_world |}).
Proof.
  apply (nothing_generated_nothing_done tape_random machine_ok env_ok OsmNoFeature
           20 1 corner_draws empty_world).
  - right. intros k Hk.
    do 20 (destruct k as [|k]; [vm_compute; reflexivity|]). lia.
  - simpl. lia.
Defined.

(** The whole output of that run. *)
Lemma rejecting_run_output :
  main tape_random machine_ok env_ok OsmNoFeature 20 1 corner_draws empty_world
  = Some (Exited,
          {| stdout :=
               ["Starting Malta point generation for 1 points...";
                "Using fallback approximate Malta boundary...";
                "Generating 1 points within Malta's boundaries...";
                "Warning: Only generated 0 points out of 1 requested after 20 attempts.";
                "No points were generated. Exiting."];
             files := ∅;
             requests := [] |}).
Proof. vm_compute. reflexivity. Qed.

Lemma unwritable_points_file_stops_the_script_example :
  exists out,
    generate_malta_points tape_random 20 OsmNoFeature 1 edge_draws = Some out /\
    main tape_random machine_locked env_ok OsmNoFeature 20 1 edge_draws empty_world
    = Some (Done tt,
            {| stdout := stdout empty_world ++ opening_lines 1 out
                 ++ ["An error occurred: "
                       +:+ "[Errno 13] Permission denied: 'malta_points.json'";
                     "Please check your internet connection if the script is trying to fetch OSM data."];
               files := files empty_world;
               requests := requests empty_world |}).
Proof.
  destruct (unwritable_points_file_stops_the_script tape_random machine_locked env_ok
              OsmNoFeature 20 1 edge_draws empty_world
              "[Errno 13] Permission denied: 'malta_points.json'")
    as (out & Hgen & Hmain); [simpl; lia | reflexivity |].
  exists out. split; [exact Hgen|]. apply Hmain. now apply edge_run_has_a_point.
Defined.

Lemma script_sends_what_it_saves_example :
  exists out res w',
    generate_malta_points tape_random 20 OsmNoFeature 1 edge_draws = Some out /\
    main tape_random machine_ok env_ok OsmNoFeature 20 1 edge_draws empty_world
      = Some (res, w') /\
    requests w' = requests empty_world ++
      [Posted default_api_url (format_points_for_api (gen_points out))
         request_headers] /\
    files w' !! "malta_points_api_format.txt"
      = Some (PlainText (format_points_for_api (gen_points out))) /\
    files w' !! "malta_points.json"
      = Some (JsonDocument (PyList (points_data (gen_points out)))).
Proof.
  destruct (script_sends_what_it_saves tape_random machine_ok env_ok OsmNoFeature
              20 1 edge_draws empty_world)
    as (out & Hgen & Hrest); [simpl; lia | reflexivity | reflexivity |].
  destruct (Hrest (edge_run_has_a_point out Hgen)) as (res & w' & Hmain).
  exists out, res, w'. split; [exact Hgen | exact Hmain].
Defined.


Lemma saved_points_document_example :
  (exists docs w',
     save_points_to_file machine_ok two_points "malta_points.json" empty_world
       = (Done tt, w') /\
     files w' !! "malta_points.json" = Some (JsonDocument (PyList docs)) /\
     length docs = 2%nat /\
     exists d,
       docs !! 1%nat = Some (PyDict d) /\
       d !! "id" = Some (PyInt 2) /\
       d !! "coordinates" = Some (PyStr "35.908202, 14.204576")) /\
  save_points_to_file machine_locked two_points "malta_points.json" empty_world
    = (Raised (mkExc OtherException
                 "[Errno 13] Permission denied: 'malta_points.json'"),
       empty_world).
Proof.
  split.
  - destruct (saved_points_document machine_ok two_points "malta_points.json"
                empty_world)
      as (docs & w' & Hrun & _ & _ & Hfile & Hlen & Hdocs).
    exists docs, w'. split; [exact Hrun|]. split; [exact Hfile|].
    split; [exact Hlen|].
    destruct (Hdocs 1%nat (of_decimal 35908202 6) (of_decimal 14204576 6) eq_refl)
      as (d & Hd & Hid & _ & _ & Hcoord).
    exists d. split; [exact Hd|]. split; [exact Hid | exact Hcoord].
  - exact (saved_points_document machine_locked two_points "malta_points.json"
             empty_world).
Defined.

Lemma print_points_shows_and_counts_example :
  exists header shown,
    print_points_lines two_points 1
    = header ++ shown ++
      (if 1 <? Z.of_nat (length two_points)
       then [more_line (Z.of_nat (length two_points) - 1)] else []) /\
    length header = 2%nat /\
    length shown = Nat.min (Z.to_nat 1) (length two_points) /\
    Z.of_nat (length shown)
      + (if 1 <? Z.of_nat (length two_points)
         then Z.of_nat (length two_points) - 1 else 0)
    = Z.of_nat (length two_points).
Proof. apply (print_points_shows_and_counts two_points 1). lia. Defined.

End PipelineFacts.

(** * The response file and the end of the script *)

Module ResponseFacts.

Import Float64 PyNum Shapely Boundary Sampler SamplerProofs Api ApiProofs Pipeline
  PipelineFacts.

Lemma save_api_response_to_json_run (m : machine) (d : gmap string pyval)
    (filename : string) (w : world) :
  save_api_response_to_json m d filename w =
  match open_error m filename with
  | None =>
      (Done tt,
       {| stdout := stdout w ++
            [newline +:+ "API response successfully saved to " +:+ filename];
          files := <[filename := JsonDocument (PyDict d)]> (files w);
          requests := requests w |})
  | Some msg =>
      (Done tt,
       {| stdout := stdout w ++
            [newline +:+ "Error: Could not save API response to file: " +:+ msg];
          files := files w;
          requests := requests w |})
  end.
Proof.
  unfold save_api_response_to_json, try_except, bind, write_file.
  destruct (open_error m filename); reflexivity.
Qed.

(** [save_api_response_to_json] always returns: it writes the response
    and prints, after an empty line, that the response was saved to the
    file named, or, when the file cannot be opened, it writes nothing and
    prints, after an empty line, that the response could not be saved,
    with the message of the error of [open].  Either way that is the one
    line it prints, and every other file and the requests are left as
    they were. *)
Theorem saving_the_response_never_raises (m : machine) (d : gmap string pyval)
    (filename : string) (w : world) :
  exists w',
    save_api_response_to_json m d filename w = (Done tt, w') /\
    stdout w' =
      stdout w ++
      [match open_error m filename with
       | None => newline +:+ "API response successfully saved to " +:+ filename
       | Some msg => newline +:+ "Error: Could not save API response to file: " +:+ msg
       end] /\
    requests w' = requests w /\
    (forall f, f <> filename -> files w' !! f = files w !! f) /\
    files w' !! filename =
    match open_error m filename with
    | None => Some (JsonDocument (PyDict d))
    | Some _ => files w !! filename
    end.
Proof.
  rewrite save_api_response_to_json_run.
  destruct (open_error m filename) as [msg|]; eexists;
    (split; [reflexivity|]); cbn [stdout files requests];
    repeat split; try reflexivity.
  - intros f Hf. now rewrite lookup_insert_ne.
  - apply lookup_insert_eq.
Qed.




Section WithRandom.

Context {R : Type}.
Variable random : R -> float * R.


End WithRandom.


Lemma saving_the_response_never_raises_example :
  (exists w',
     save_api_response_to_json machine_locked ∅ "malta_points.json" empty_world
       = (Done tt, w') /\
     stdout w' =
       stdout empty_world ++
       [newline +:+ "Error: Could not save API response to file: "
          +:+ "[Errno 13] Permission denied: 'malta_points.json'"] /\
     requests w' = requests empty_world /\
     (forall f, f <> "malta_points.json" -> files w' !! f = files empty_world !! f) /\
     files w' !! "malta_points.json" = files empty_world !! "malta_points.json") /\
  (exists w',
     save_api_response_to_json machine_locked ∅ "api_response.json" empty_world
       = (Done tt, w') /\
     stdout w' =
       stdout empty_world ++
       [newline +:+ "API response successfully saved to " +:+ "api_response.json"] /\
     requests w' = requests empty_world /\
     (forall f, f <> "api_response.json" -> files w' !! f = files empty_world !! f) /\
     files w' !! "api_response.json" = Some (JsonDocument (PyDict ∅))).
Proof.
  split.
  - exact (saving_the_response_never_raises machine_locked ∅ "malta_points.json"
             empty_world).
  - exact (saving_the_response_never_raises machine_locked ∅ "api_response.json"
             empty_world).
Defined.

End ResponseFacts.
